(** * Animal Outcomes Dashboard: a shallow embedding of
    [ProjectTwoDashboard_FIXED_v3.py] and the properties of its
    capability resolver, query builder and view layer. *)

From Stdlib Require Import String Ascii List Bool Arith Lia Permutation Sorted Btauto.
Import ListNotations.
Set Warnings "-register-all".
Local Open Scope string_scope.
Local Open Scope list_scope.

(* ================================================================= *)
(** ** Python exceptions and results *)

(** The exception classes the script tells apart.  [BaseOnly] stands for
    the classes outside [Exception] (KeyboardInterrupt, SystemExit), which
    an [except Exception] clause lets through. *)
Inductive exn_class : Type :=
| TypeError
| AttributeError
| KeyError
| RuntimeError
| OtherException
| BaseOnly.

Record exn : Type := mkExn { exn_cls : exn_class; exn_msg : string }.

(** [isinstance(e, Exception)] *)
Definition is_Exception (e : exn) : bool :=
  match exn_cls e with
  | BaseOnly => false
  | _ => true
  end.

(** [isinstance(e, TypeError)] *)
Definition is_TypeError (e : exn) : bool :=
  match exn_cls e with
  | TypeError => true
  | _ => false
  end.

(** What evaluating a Python expression gives: a value, or a raised
    exception. *)
Inductive result (A : Type) : Type :=
| Ret (a : A)
| Raise (e : exn).
Arguments Ret {A} a.
Arguments Raise {A} e.

Definition bind {A B : Type} (m : result A) (k : A -> result B) : result B :=
  match m with
  | Ret a => k a
  | Raise e => Raise e
  end.

(** [try: body  except Exception: handler] *)
Definition try_except_Exception {A : Type}
    (body : result A) (handler : exn -> result A) : result A :=
  match body with
  | Ret a => Ret a
  | Raise e => if is_Exception e then handler e else Raise e
  end.

Notation "x <- m ;; k" := (bind m (fun x => k))
  (at level 61, m at next level, right associativity).

(* ================================================================= *)
(** ** Python dicts with string keys

    A dict keeps its keys in insertion order; [d[k] = v] overwrites in
    place when [k] is there already and appends otherwise. *)

Definition dict (V : Type) : Type := list (string * V).

Fixpoint dict_get {V : Type} (k : string) (d : dict V) : option V :=
  match d with
  | [] => None
  | (k', v) :: d' => if String.eqb k k' then Some v else dict_get k d'
  end.

Fixpoint dict_set {V : Type} (k : string) (v : V) (d : dict V) : dict V :=
  match d with
  | [] => [(k, v)]
  | (k', v') :: d' =>
      if String.eqb k k' then (k, v) :: d' else (k', v') :: dict_set k v d'
  end.

(** [k in d] *)
Definition dict_has {V : Type} (k : string) (d : dict V) : bool :=
  match dict_get k d with
  | Some _ => true
  | None => false
  end.

Definition dict_keys {V : Type} (d : dict V) : list string := map fst d.

(** [x in xs] for a list of strings *)
Definition str_in (x : string) (xs : list string) : bool :=
  existsb (String.eqb x) xs.

(* ================================================================= *)
(** ** Query Builder *)

(** The values a Filter holds: a plain string, a list of strings, or a
    nested operator dict such as [{"$regex": ..., "$options": "i"}]. *)
Inductive qvalue : Type :=
| QStr (s : string)
| QList (l : list string)
| QDict (d : list (string * qvalue)).

Definition query : Type := dict qvalue.

(** Truth value of a dropdown or text input: [None] and [""] are falsy. *)
Definition truthy (x : option string) : bool :=
  match x with
  | None => false
  | Some s => negb (String.eqb s "")
  end.

(** [x != "All"] *)
Definition not_All (x : option string) : bool :=
  match x with
  | None => true
  | Some s => negb (String.eqb s "All")
  end.

Definition str_of (x : option string) : string :=
  match x with
  | None => ""
  | Some s => s
  end.

(** [build_query(animal_type, outcome_type, breed_text, sex_list)] *)
Definition build_query
    (animal_type outcome_type breed_text : option string)
    (sex_list : list string) : query :=
  let q := [] in
  let q := if truthy animal_type && not_All animal_type
           then dict_set "animal_type" (QStr (str_of animal_type)) q else q in
  let q := if truthy outcome_type && not_All outcome_type
           then dict_set "outcome_type" (QStr (str_of outcome_type)) q else q in
  let q := if truthy breed_text
           then dict_set "breed"
                  (QDict [("$regex", QStr (str_of breed_text));
                          ("$options", QStr "i")]) q
           else q in
  let q := match sex_list with
           | [] => q
           | _ :: _ => dict_set "sex_upon_outcome" (QDict [("$in", QList sex_list)]) q
           end in
  q.

(** [sex or []]: the multi-select hands over [None] until something is
    picked. *)
Definition or_empty (sex : option (list string)) : list string :=
  match sex with
  | None => []
  | Some l => l
  end.

(* ================================================================= *)
(** ** Records and the backing store's reading of a Filter *)

(** A scalar held by a Record field or a table cell.  [VObj] is any
    scalar that is neither missing nor a string (an ObjectId, a number,
    a date), carried with the text [str()] gives for it.  pandas types
    every column when it builds a table and may then hold a number in
    another form than the store gave it (an int as a float, [None] as
    NaN in a numeric column); the tables below keep the scalar they were
    given, so that a statement is made only where the two agree: on
    which columns and rows a table has, on strings, and on whether a
    cell is missing. *)
Inductive value : Type :=
| VNone
| VNaN
| VStr (s : string)
| VObj (repr : string).

Definition value_eqb (a b : value) : bool :=
  match a, b with
  | VNone, VNone => true
  | VNaN, VNaN => true
  | VStr s, VStr t => String.eqb s t
  | VObj s, VObj t => String.eqb s t
  | _, _ => false
  end.

(** [str(v)] *)
Definition py_str (v : value) : string :=
  match v with
  | VNone => "None"
  | VNaN => "nan"
  | VStr s => s
  | VObj repr => repr
  end.

Definition is_str (v : value) : bool :=
  match v with
  | VStr _ => true
  | _ => false
  end.

Definition record : Type := dict value.

(** ASCII case folding, as the [i] option of a pattern does it. *)
Definition lower_ascii (c : ascii) : ascii :=
  let n := nat_of_ascii c in
  if Nat.leb 65 n && Nat.leb n 90 then ascii_of_nat (n + 32) else c.

Fixpoint lower (s : string) : string :=
  match s with
  | EmptyString => EmptyString
  | String c s' => String (lower_ascii c) (lower s')
  end.

(** [p] occurs somewhere in [s]. *)
Fixpoint contains (p s : string) : bool :=
  if String.prefix p s then true
  else match s with
       | EmptyString => false
       | String _ s' => contains p s'
       end.

Fixpoint has_char (c : ascii) (s : string) : bool :=
  match s with
  | EmptyString => false
  | String c' s' => Ascii.eqb c c' || has_char c s'
  end.

(** The characters a regular expression gives a meaning of their own. *)
Definition regex_meta : string := "\^$.|?*+()[]{}".

Fixpoint literal_pattern (p : string) : bool :=
  match p with
  | EmptyString => true
  | String c p' => negb (has_char c regex_meta) && literal_pattern p'
  end.

(** Modelled from the spec: the backing store is not part of the
    repository; a Filter maps a field to "an exact-match value, a
    case-insensitive substring pattern, or a set of acceptable values".
    [regex_search] is the store's unanchored pattern search for patterns
    made of literal characters only, folding case under option [i];
    a pattern with a metacharacter is outside the modelled fragment. *)
Definition regex_search (options pattern subject : string) : option bool :=
  if literal_pattern pattern then
    Some (if has_char "i"%char options
          then contains (lower pattern) (lower subject)
          else contains pattern subject)
  else None.

(** Modelled from the spec: whether one field of a Record meets one
    constraint of a Filter. *)
Definition constraint_holds (field : option value) (c : qvalue) : option bool :=
  match c with
  | QStr s =>
      Some (match field with
            | Some v => value_eqb v (VStr s)
            | None => false
            end)
  | QDict [("$regex", QStr p); ("$options", QStr o)] =>
      match field with
      | Some (VStr s) => regex_search o p s
      | _ => Some false
      end
  | QDict [("$in", QList l)] =>
      Some (match field with
            | Some (VStr s) => str_in s l
            | _ => false
            end)
  | _ => None
  end.

(** Modelled from the spec: a Record matches a Filter when it meets every
    constraint; the empty Filter matches everything. *)
Fixpoint matches (r : record) (q : query) : option bool :=
  match q with
  | [] => Some true
  | (k, c) :: q' =>
      match constraint_holds (dict_get k r) c, matches r q' with
      | Some a, Some b => Some (a && b)
      | _, _ => None
      end
  end.

(* ================================================================= *)
(** ** Tables (pandas DataFrame)

    A table is held by column: every column is a list of [nrows] cells,
    and the columns keep the order in which they were added. *)

Record frame : Type := mkFrame { nrows : nat; cols : dict (list value) }.

(** [df.columns] *)
Definition df_columns (df : frame) : list string := dict_keys (cols df).

(** [c in df.columns] *)
Definition in_columns (c : string) (df : frame) : bool :=
  str_in c (df_columns df).

(** The keys of a list of dicts, each once, in order of first
    appearance. *)
Definition add_key (acc : list string) (k : string) : list string :=
  if str_in k acc then acc else acc ++ [k].

Definition columns_of_records (rs : list record) : list string :=
  fold_left (fun acc r => fold_left add_key (dict_keys r) acc) rs [].

(** The cell a dict gives to column [c]: its value, or NaN when the key
    is not there. *)
Definition cell (c : string) (r : record) : value :=
  match dict_get c r with
  | Some v => v
  | None => VNaN
  end.

(** [pd.DataFrame(rows)] for a list of dicts: one row per dict, one
    column per key, NaN where a dict has no such key.  The retyping of
    numeric columns is not followed (see [value]). *)
Definition DataFrame (rs : list record) : frame :=
  mkFrame (length rs)
          (map (fun c => (c, map (cell c) rs)) (columns_of_records rs)).

(** [pd.DataFrame(columns=cs)]: the named columns and no row. *)
Definition DataFrame_columns (cs : list string) : frame :=
  mkFrame 0 (map (fun c => (c, [])) cs).

(** [df[c] = v] for a scalar [v], which fills the whole column. *)
Definition setitem_scalar (c : string) (v : value) (df : frame) : frame :=
  mkFrame (nrows df) (dict_set c (repeat v (nrows df)) (cols df)).

(** [df[c] = vs] for a column of cells. *)
Definition setitem (c : string) (vs : list value) (df : frame) : frame :=
  mkFrame (nrows df) (dict_set c vs (cols df)).

(** [df[c]] *)
Definition getitem (c : string) (df : frame) : result (list value) :=
  match dict_get c (cols df) with
  | Some vs => Ret vs
  | None => Raise (mkExn KeyError c)
  end.

(** [series.astype(str)]: every cell becomes a string.  For a missing
    cell this is pandas before 3.0, which writes the text of the missing
    value; from 3.0 on the cell stays missing.  No statement below rests
    on what a missing cell becomes, nor on the text of a number. *)
Definition astype_str (vs : list value) : list value :=
  map (fun v => VStr (py_str v)) vs.

(** [df.empty]: no row or no column. *)
Definition df_empty (df : frame) : bool :=
  Nat.eqb (nrows df) 0 || Nat.eqb (length (cols df)) 0.

(** Row [i] of a table as a dict. *)
Definition row_dict (df : frame) (i : nat) : record :=
  map (fun cv => (fst cv, nth i (snd cv) VNaN)) (cols df).

(** [df.to_dict("records")] *)
Definition to_dict_records (df : frame) : list record :=
  map (row_dict df) (seq 0 (nrows df)).

(** What a reader hands back.  [Rows rs] is a list or cursor that yields
    the dicts [rs]; [Unlistable e direct] is anything whose [list(...)]
    raises [e] ([None], a scalar, a cursor that fails while it is read),
    with [direct] what [pd.DataFrame] makes of the object itself. *)
Inductive iterable : Type :=
| Rows (rs : list record)
| Unlistable (e : exn) (direct : result frame).

(** [list(records)] *)
Definition py_list (records : iterable) : result (list record) :=
  match records with
  | Rows rs => Ret rs
  | Unlistable e _ => Raise e
  end.

(** [pd.DataFrame(records)] on the object as it came. *)
Definition pd_DataFrame (records : iterable) : result frame :=
  match records with
  | Rows rs => Ret (DataFrame rs)
  | Unlistable _ direct => direct
  end.

(** The table [to_dataframe] holds before it looks at the ["_id"]
    column. *)
Definition raw_dataframe (records : iterable) : result frame :=
  try_except_Exception
    (l <- py_list records ;; Ret (DataFrame l))
    (fun _ => pd_DataFrame records).

(** [to_dataframe(records)] *)
Definition to_dataframe (records : iterable) : result frame :=
  df <- raw_dataframe records ;;
  match dict_get "_id" (cols df) with
  | Some ids => Ret (setitem "_id" (astype_str ids) df)
  | None => Ret df
  end.

Definition EXPECTED_COLS : list string :=
  ["_id"; "name"; "animal_id"; "animal_type"; "breed"; "color";
   "age_upon_outcome"; "sex_upon_outcome"; "outcome_type";
   "outcome_subtype"; "date_of_birth"].

(** [if c not in df.columns: df[c] = None] *)
Definition ensure_step (df : frame) (c : string) : frame :=
  if in_columns c df then df else setitem_scalar c VNone df.

(** [for c in EXPECTED_COLS: if c not in df.columns: df[c] = None] *)
Definition ensure_expected (df : frame) : frame :=
  fold_left ensure_step EXPECTED_COLS df.

(** The resolved reader at the moment of one call.  The store behind it
    is live, and the script calls the reader once at start-up and once
    in every [update_table]; within one such call the answer is a
    function of the query, and two calls at two moments are two values
    of this type. *)
Definition reader_fn : Type := query -> result iterable.

(** The table [update_table] holds when it reaches its [return]; the
    line it prints on a query error is not modelled. *)
Definition update_table_frame (reader : reader_fn)
    (animal outcome breed : option string) (sex : option (list string))
    : result frame :=
  let q := build_query animal outcome breed (or_empty sex) in
  df <- try_except_Exception
          (records <- reader q ;; to_dataframe records)
          (fun _ => Ret (DataFrame_columns EXPECTED_COLS)) ;;
  Ret (ensure_expected df).

(** [update_table(animal, outcome, breed, sex)] *)
Definition update_table (reader : reader_fn)
    (animal outcome breed : option string) (sex : option (list string))
    : result (list record) :=
  df <- update_table_frame reader animal outcome breed sex ;;
  Ret (to_dict_records df).

(* ================================================================= *)
(** ** Chart *)

(** [pd.isna(v)] *)
Definition isna (v : value) : bool :=
  match v with
  | VNone | VNaN => true
  | _ => false
  end.

(** [series.fillna(fill)] *)
Definition fillna (fill : value) (vs : list value) : list value :=
  map (fun v => if isna v then fill else v) vs.

(** One more occurrence of [v]: its counter goes up, or a new counter is
    appended. *)
Fixpoint bump (v : value) (acc : list (value * nat)) : list (value * nat) :=
  match acc with
  | [] => [(v, 1)]
  | (k, n) :: acc' =>
      if value_eqb v k then (k, S n) :: acc' else (k, n) :: bump v acc'
  end.

Definition tally (vs : list value) : list (value * nat) :=
  fold_left (fun acc v => bump v acc) vs [].

Fixpoint insert_desc (x : value * nat) (l : list (value * nat))
    : list (value * nat) :=
  match l with
  | [] => [x]
  | y :: l' =>
      if Nat.leb (snd y) (snd x) then x :: y :: l' else y :: insert_desc x l'
  end.

Definition sort_desc (l : list (value * nat)) : list (value * nat) :=
  fold_right insert_desc [] l.

(** [series.value_counts()]: missing cells are dropped, equal values are
    counted, the largest count comes first.  Among equal counts the
    model keeps the order of first appearance. *)
Definition value_counts (vs : list value) : list (value * nat) :=
  sort_desc (tally (filter (fun v => negb (isna v)) vs)).

(** The count a bar list gives to [k]. *)
Fixpoint count_of (k : value) (bars : list (value * nat)) : option nat :=
  match bars with
  | [] => None
  | (k', n) :: bars' => if value_eqb k k' then Some n else count_of k bars'
  end.

(** How often [k] occurs in a column. *)
Definition occurrences (k : value) (vs : list value) : nat :=
  length (filter (value_eqb k) vs).

(** The bar a table row falls under: its outcome type, or "Unknown"
    when it has none. *)
Definition outcome_bucket (r : record) : value :=
  let v := cell "outcome_type" r in
  if isna v then VStr "Unknown" else v.

(** A bar chart: its title, its bars (x value, height) from left to
    right, and the margins (l, r, t, b) when they were set. *)
Record figure : Type := mkFigure {
  fig_title : string;
  fig_bars : list (value * nat);
  fig_margin : option (nat * nat * nat * nat)
}.

(** [update_chart(rows)] *)
Definition update_chart (rows : list record) : result figure :=
  let df := DataFrame rows in
  if df_empty df || negb (in_columns "outcome_type" df) then
    Ret (mkFigure "Outcome Type Distribution (no data)" [] None)
  else
    col <- getitem "outcome_type" df ;;
    let ct := value_counts (fillna (VStr "Unknown") col) in
    Ret (mkFigure "Outcome Type Distribution" ct (Some (20, 20, 40, 20))).

(* ================================================================= *)
(** ** Capability Resolver: construction *)

Section Construction.

(** The instances of the backing-store class, and whatever a
    constructor call can read or change (the network, the server). *)
Variables (instance world : Type).

(** [ShelterClass] called on the arguments [args] in a given world. *)
Variable ShelterClass : list string -> world -> result instance * world.

(** The credentials read from the environment at start-up. *)
Variables (USERNAME PASSWORD : string).

Definition args_eqb (a b : list string) : bool :=
  Nat.eqb (length a) (length b)
  && forallb (fun xy => String.eqb (fst xy) (snd xy)) (combine a b).

(** The shapes [try_construct] goes through, given the parameter names
    of [ShelterClass.__init__] ([self] among them). *)
Definition patterns (init_params : list string) : list (list string) :=
  let patterns := [[]; [USERNAME]; [USERNAME; PASSWORD]] in
  let params := filter (fun p => negb (String.eqb p "self")) init_params in
  if Nat.eqb (length params) 0 && negb (existsb (args_eqb []) patterns)
  then [] :: patterns
  else patterns.

(** The guarded loop: [Some] once an attempt returned (or raised past
    [except Exception]), [None] when every shape was skipped. *)
Fixpoint try_patterns (ps : list (list string)) (w : world)
    : option (result instance) * world :=
  match ps with
  | [] => (None, w)
  | args :: ps' =>
      match ShelterClass args w with
      | (Ret i, w') => (Some (Ret i), w')
      | (Raise e, w') =>
          if is_Exception e then try_patterns ps' w'
          else (Some (Raise e), w')
      end
  end.

(** [try_construct()] *)
Definition try_construct (init_params : list string) (w : world)
    : result instance * world :=
  match try_patterns (patterns init_params) w with
  | (Some r, w') => (r, w')
  | (None, w') => ShelterClass [] w'
  end.

End Construction.

(* ================================================================= *)
(** ** Capability Resolver: method discovery *)

(** A Python object as the resolver probes it: a function (anything
    callable) taking positional arguments, an object with attributes, or
    a value with neither. *)
Inductive pyobj : Type :=
| PyPlain
| PyFunc (f : list query -> result iterable)
| PyObject (attrs : list (string * pyobj)).

Definition attrs_of (o : pyobj) : list (string * pyobj) :=
  match o with
  | PyObject attrs => attrs
  | _ => []
  end.

(** [hasattr(o, name)] *)
Definition hasattr (o : pyobj) (name : string) : bool :=
  dict_has name (attrs_of o).

(** [getattr(o, name)], that is [o.name] *)
Definition getattr (o : pyobj) (name : string) : result pyobj :=
  match dict_get name (attrs_of o) with
  | Some a => Ret a
  | None => Raise (mkExn AttributeError name)
  end.

(** [callable(o)] *)
Definition callable (o : pyobj) : bool :=
  match o with
  | PyFunc _ => true
  | _ => false
  end.

(** [o] called on the positional arguments [args] *)
Definition call (o : pyobj) (args : list query) : result iterable :=
  match o with
  | PyFunc f => f args
  | _ => Raise (mkExn TypeError "object is not callable")
  end.

Definition CANDIDATE_METHODS : list string :=
  ["read"; "retrieve"; "read_all"; "readAll";
   "get"; "get_all"; "find"; "fetch"; "fetch_all";
   "read_records"; "read_all_records"; "get_records"].

(** The four lambdas [resolve_reader] can return, each with what it
    closes over. *)
Inductive reader : Type :=
| CallWithQuery (fn : pyobj)      (* lambda q: fn(q) *)
| CallNoArgs (fn : pyobj)         (* lambda q: fn() *)
| CollectionFind (obj : pyobj)    (* lambda q: obj.collection.find(q) *)
| DatabaseFind (obj : pyobj).     (* lambda q: obj.database.find(q) *)

(** Evaluating a lambda expression builds the closure and calls
    nothing. *)
Definition make_lambda (r : reader) : result reader := Ret r.

(** [reader(q)] *)
Definition run_reader (r : reader) (q : query) : result iterable :=
  match r with
  | CallWithQuery fn => call fn [q]
  | CallNoArgs fn => call fn []
  | CollectionFind obj =>
      c <- getattr obj "collection" ;; f <- getattr c "find" ;; call f [q]
  | DatabaseFind obj =>
      d <- getattr obj "database" ;; f <- getattr d "find" ;; call f [q]
  end.

(** The loop over [CANDIDATE_METHODS]: [Some] when it returned (or
    raised), [None] when it ran to its end. *)
Fixpoint scan_candidates (obj : pyobj) (names : list string)
    : option (result reader) :=
  match names with
  | [] => None
  | name :: names' =>
      if hasattr obj name then
        match getattr obj name with
        | Raise e => Some (Raise e)
        | Ret fn =>
            if callable fn then
              match make_lambda (CallWithQuery fn) with
              | Ret r => Some (Ret r)
              | Raise e =>
                  if is_TypeError e then
                    match make_lambda (CallNoArgs fn) with
                    | Ret r => Some (Ret r)
                    | Raise e' =>
                        if is_Exception e' then scan_candidates obj names'
                        else Some (Raise e')
                    end
                  else Some (Raise e)
              end
            else scan_candidates obj names'
        end
      else scan_candidates obj names'
  end.

(** [hasattr(obj, outer) and hasattr(obj.outer, "find")] *)
Definition has_nested_find (obj : pyobj) (outer : string) : bool :=
  match dict_get outer (attrs_of obj) with
  | Some o => hasattr o "find"
  | None => false
  end.

Definition no_reader_message : string :=
  "Could not find a usable read method. Please check CRUD_Python_Module.py and confirm a method exists to retrieve records.".

(** [resolve_reader(obj)] *)
Definition resolve_reader (obj : pyobj) : result reader :=
  match scan_candidates obj CANDIDATE_METHODS with
  | Some r => r
  | None =>
      if has_nested_find obj "collection" then make_lambda (CollectionFind obj)
      else if has_nested_find obj "database" then make_lambda (DatabaseFind obj)
      else Raise (mkExn RuntimeError no_reader_message)
  end.

(** No candidate name of [names] is a callable attribute of [obj]. *)
Definition no_callable (obj : pyobj) (names : list string) : Prop :=
  forall n f, In n names -> dict_get n (attrs_of obj) = Some f ->
              callable f = false.

(* ================================================================= *)
(** ** Sample data *)

(** Two documents as the store returns them: the first with an ObjectId
    and a field the table does not expect, the second without
    identifier or outcome type. *)
Definition sample_rows : list record :=
  [[("_id", VObj "65f1c0ffee"); ("name", VStr "Rex");
    ("breed", VStr "German Shepherd"); ("outcome_type", VStr "Adoption");
    ("location_lat", VObj "30.75")];
   [("name", VStr "Tom"); ("breed", VStr "Domestic Shorthair Mix");
    ("outcome_type", VNone)]].

Definition sample_reader : reader_fn := fun _ => Ret (Rows sample_rows).

(** A reader whose every call fails. *)
Definition failing_reader : reader_fn :=
  fun _ => Raise (mkExn OtherException "connection lost").

(** Table rows with outcome types Adoption (three times) and null
    (twice). *)
Definition adoption_rows : list record :=
  [[("outcome_type", VStr "Adoption")]; [("outcome_type", VNone)];
   [("outcome_type", VStr "Adoption")]; [("outcome_type", VNone)];
   [("outcome_type", VStr "Adoption")]].

(** A client whose [read] takes no argument. *)
Definition read_no_args : pyobj :=
  PyFunc (fun args =>
            match args with
            | [] => Ret (Rows sample_rows)
            | _ :: _ =>
                Raise (mkExn TypeError
                         "read() takes 1 positional argument but 2 were given")
            end).

Definition no_arg_client : pyobj :=
  PyObject [("create", PyFunc (fun _ => Ret (Rows []))); ("read", read_no_args)].

(** A client class whose constructor wants a username and a password;
    the world counts the constructor calls made so far. *)
Definition two_credential_class (args : list string) (calls : nat)
    : result (list string) * nat :=
  match args with
  | [user; pass] => (Ret [user; pass], S calls)
  | _ => (Raise (mkExn TypeError "__init__() missing required arguments"),
          S calls)
  end.

(* ================================================================= *)
(** ** Start-up: importing the client class *)

Section ImportClass.

(** The client classes, and whatever an import can read or change. *)
Variables (shelter_class world : Type).

(** [__import__(modname, fromlist=["AnimalShelter"])] followed by
    [getattr(module, "AnimalShelter", None)]: the class of the module,
    [None] when the module has none, or the exception the import
    raised. *)
Variable import_shelter :
  string -> world -> result (option shelter_class) * world.

Definition MODULE_NAMES : list string := ["CRUD_Python_Module"; "gradstore_crud"].

(** The loop over the module names.  While it runs [ShelterClass] is
    [None], so only [last_import_error] is carried along; it ends with
    the class it broke out with, if any, and the last error. *)
Fixpoint import_loop (mods : list string) (last_import_error : option exn)
    (w : world) : result (option shelter_class * option exn) * world :=
  match mods with
  | [] => (Ret (None, last_import_error), w)
  | modname :: mods' =>
      match import_shelter modname w with
      | (Ret (Some c), w') => (Ret (Some c, last_import_error), w')
      | (Ret None, w') => import_loop mods' last_import_error w'
      | (Raise e, w') =>
          if is_Exception e then import_loop mods' (Some e) w'
          else (Raise e, w')
      end
  end.

(** The text an f-string gives for [last_import_error]. *)
Definition str_of_error (e : option exn) : string :=
  match e with
  | None => "None"
  | Some e => exn_msg e
  end.

(** Lines 18 to 30 of the script: the class, or the [RuntimeError] that
    ends start-up. *)
Definition import_class (w : world) : result shelter_class * world :=
  match import_loop MODULE_NAMES None w with
  | (Ret (Some c, _), w') => (Ret c, w')
  | (Ret (None, err), w') =>
      (Raise (mkExn RuntimeError
                (String.append
                   "Could not import AnimalShelter class. Last import error: "
                   (str_of_error err))), w')
  | (Raise e, w') => (Raise e, w')
  end.

End ImportClass.

(** A constructor that also writes down, in the world, the arguments of
    every call made to it. *)
Definition logged {instance world : Type}
    (ctor : list string -> world -> result instance * world)
    (args : list string) (lw : list (list string) * world)
    : result instance * (list (list string) * world) :=
  let (r, w') := ctor args (snd lw) in
  (r, (fst lw ++ [args], w')).

(** An outcome the guarded loop of [try_construct] passes over: an
    exception that [except Exception] catches. *)
Definition skipped {A : Type} (r : result A) : bool :=
  match r with
  | Ret _ => false
  | Raise e => is_Exception e
  end.

(* ================================================================= *)
(** ** Start-up: initial fetch and dropdown options *)

(** [base_df] once the expected columns were filled in: the initial
    fetch with the empty Filter, an empty table when it fails. *)
Definition initial_frame (reader : reader_fn) : result frame :=
  base_df <- try_except_Exception
               (records <- reader [] ;; to_dataframe records)
               (fun _ => Ret (mkFrame 0 [])) ;;
  Ret (ensure_expected base_df).

(** [series.dropna()] *)
Definition dropna (vs : list value) : list value :=
  filter (fun v => negb (isna v)) vs.

(** [series.unique()]: every value once, in order of first
    appearance. *)
Fixpoint unique (vs : list value) : list value :=
  match vs with
  | [] => []
  | v :: vs' => v :: filter (fun x => negb (value_eqb x v)) (unique vs')
  end.

Fixpoint insert_str (s : string) (l : list string) : list string :=
  match l with
  | [] => [s]
  | x :: l' => if String.leb s x then s :: x :: l' else x :: insert_str s l'
  end.

(** [sorted(l)] for a list of strings. *)
Definition sorted_strs (l : list string) : list string :=
  fold_right insert_str [] l.

(** The strings of a list of values, when all of them are strings. *)
Fixpoint strings_of (vs : list value) : option (list string) :=
  match vs with
  | [] => Some []
  | VStr s :: vs' => option_map (cons s) (strings_of vs')
  | _ :: _ => None
  end.

(** [sorted([x for x in series.dropna().unique().tolist()])].  A column
    that holds a scalar other than a string is outside the model
    ([None]): Python orders numbers by value and refuses to compare a
    string with a number. *)
Definition sorted_unique (vs : list value) : option (list string) :=
  option_map sorted_strs (strings_of (unique (dropna vs))).

(** [["All"] + sorted(...) if c in base_df.columns else ["All"]] *)
Definition options_with_All (c : string) (df : frame) : option (list string) :=
  match dict_get c (cols df) with
  | Some vs => option_map (cons "All") (sorted_unique vs)
  | None => Some ["All"]
  end.

Definition animal_types (base_df : frame) : option (list string) :=
  options_with_All "animal_type" base_df.

Definition outcome_types (base_df : frame) : option (list string) :=
  options_with_All "outcome_type" base_df.

(** [sorted(...) if "sex_upon_outcome" in base_df.columns else []] *)
Definition sex_options (base_df : frame) : option (list string) :=
  match dict_get "sex_upon_outcome" (cols base_df) with
  | Some vs => sorted_unique vs
  | None => Some []
  end.

(** [r[k] == v] for a string [v]; a Record without the field fails. *)
Definition field_is (k v : string) (r : record) : bool :=
  match dict_get k r with
  | Some x => value_eqb x (VStr v)
  | None => false
  end.

(** What the four controls ask of a Record, in words: one test per
    control that is set, namely the chosen animal type, the chosen
    outcome type, a breed that contains the text whatever the case, a
    sex among those picked. *)
Definition passes (animal_type outcome_type breed_text : option string)
    (sex_list : list string) (r : record) : bool :=
  (if truthy animal_type && not_All animal_type
   then field_is "animal_type" (str_of animal_type) r else true)
  && (if truthy outcome_type && not_All outcome_type
      then field_is "outcome_type" (str_of outcome_type) r else true)
  && (if truthy breed_text
      then match dict_get "breed" r with
           | Some (VStr breed) => contains (lower (str_of breed_text)) (lower breed)
           | _ => false
           end
      else true)
  && (match sex_list with
      | [] => true
      | _ :: _ => match dict_get "sex_upon_outcome" r with
                  | Some (VStr sex) => str_in sex sex_list
                  | _ => false
                  end
      end).

(** [rest] lists the strings of column [c] of [df]: each once, in
    ascending order. *)
Definition lists_column (c : string) (df : frame) (rest : list string) : Prop :=
  Sorted (fun a b => String.leb a b = true) rest
  /\ NoDup rest
  /\ forall s, In s rest
       <-> exists vs, dict_get c (cols df) = Some vs /\ In (VStr s) vs.

(** Every cell of column [c] of [df] is a string or missing. *)
Definition string_column (c : string) (df : frame) : Prop :=
  forall vs v, dict_get c (cols df) = Some vs -> In v vs ->
               isna v = true \/ is_str v = true.

(** Three documents with the fields the dropdowns are built from. *)
Definition shelter_rows : list record :=
  [[("animal_type", VStr "Dog"); ("breed", VStr "Labrador Retriever Mix");
    ("sex_upon_outcome", VStr "Spayed Female");
    ("outcome_type", VStr "Adoption")];
   [("animal_type", VStr "Cat"); ("breed", VStr "Domestic Shorthair Mix");
    ("sex_upon_outcome", VStr "Intact Male"); ("outcome_type", VNone)];
   [("animal_type", VStr "Dog"); ("breed", VStr "German Shepherd");
    ("sex_upon_outcome", VStr "Intact Male");
    ("outcome_type", VStr "Transfer")]].

Definition shelter_reader : reader_fn := fun _ => Ret (Rows shelter_rows).

(* ================================================================= *)
(** * Properties *)

(** ** Strings and dicts *)

Lemma str_in_In (x : string) (xs : list string) :
  str_in x xs = true <-> In x xs.
Proof.
  unfold str_in. rewrite existsb_exists. split.
  - intros [y [Hy Heq]]. apply String.eqb_eq in Heq. now subst.
  - intros H. exists x. split; [assumption | apply String.eqb_refl].
Qed.

Lemma str_in_false (x : string) (xs : list string) :
  str_in x xs = false <-> ~ In x xs.
Proof.
  rewrite <- str_in_In. destruct (str_in x xs); split; congruence.
Qed.

Lemma dict_get_set_same {V : Type} (k : string) (v : V) (d : dict V) :
  dict_get k (dict_set k v d) = Some v.
Proof.
  induction d as [|[k' v'] d IH]; simpl.
  - now rewrite String.eqb_refl.
  - destruct (String.eqb k k') eqn:E; simpl.
    + now rewrite String.eqb_refl.
    + now rewrite E.
Qed.

Lemma dict_get_set_other {V : Type} (k k' : string) (v : V) (d : dict V) :
  k <> k' -> dict_get k' (dict_set k v d) = dict_get k' d.
Proof.
  intros Hne. induction d as [|[k0 v0] d IH]; simpl.
  - destruct (String.eqb_spec k' k); [congruence | reflexivity].
  - destruct (String.eqb_spec k k0) as [->|Hk]; simpl.
    + destruct (String.eqb_spec k' k0); [congruence | reflexivity].
    + destruct (String.eqb_spec k' k0); [reflexivity | apply IH].
Qed.

Lemma dict_has_keys {V : Type} (k : string) (d : dict V) :
  dict_has k d = str_in k (dict_keys d).
Proof.
  unfold dict_has, str_in, dict_keys.
  induction d as [|[k' v'] d IH]; simpl; [reflexivity|].
  destruct (String.eqb k k'); [reflexivity | exact IH].
Qed.

Lemma dict_get_In {V : Type} (k : string) (v : V) (d : dict V) :
  dict_get k d = Some v -> In (k, v) d.
Proof.
  induction d as [|[k' v'] d IH]; simpl; [discriminate|].
  destruct (String.eqb_spec k k') as [->|Hk].
  - intros [= ->]. now left.
  - intros H. right. now apply IH.
Qed.

Lemma dict_get_map {V W : Type} (f : V -> W) (k : string) (d : dict V) :
  dict_get k (map (fun kv => (fst kv, f (snd kv))) d)
  = option_map f (dict_get k d).
Proof.
  induction d as [|[k' v'] d IH]; simpl; [reflexivity|].
  destruct (String.eqb k k'); [reflexivity | exact IH].
Qed.

Lemma prefix_app (p s : string) :
  String.prefix p s = true <-> exists v, s = String.append p v.
Proof.
  revert s. induction p as [|a p IH]; intros s.
  - split; [intros _; now exists s | intros _; now destruct s].
  - destruct s as [|b s]; simpl.
    + split; [discriminate | intros [v Hv]; discriminate].
    + destruct (ascii_dec a b) as [->|Hab].
      * rewrite IH. split; intros [v Hv]; exists v; congruence.
      * split; [discriminate | intros [v Hv]; congruence].
Qed.

Lemma contains_unfold (p s : string) :
  contains p s
  = if String.prefix p s then true
    else match s with
         | EmptyString => false
         | String _ s' => contains p s'
         end.
Proof. destruct s; reflexivity. Qed.

(** [contains p s] holds exactly when [s] reads [u ++ p ++ v]. *)
Lemma contains_spec (p s : string) :
  contains p s = true
  <-> exists u v, s = String.append u (String.append p v).
Proof.
  induction s as [|c s IH]; rewrite contains_unfold.
  - destruct (String.prefix p "") eqn:E.
    + split; [intros _ | reflexivity].
      apply prefix_app in E. destruct E as [v Hv]. now exists "", v.
    + split; [discriminate|]. intros [u [v Huv]].
      destruct u; simpl in Huv; [|discriminate].
      assert (String.prefix p "" = true) by (apply prefix_app; now exists v).
      congruence.
  - destruct (String.prefix p (String c s)) eqn:E.
    + split; [intros _ | reflexivity].
      apply prefix_app in E. destruct E as [v Hv]. now exists "", v.
    + rewrite IH. split.
      * intros [u [v Huv]]. exists (String c u), v. simpl. now rewrite Huv.
      * intros [u [v Huv]]. destruct u as [|c' u]; simpl in Huv.
        -- assert (String.prefix p (String c s) = true)
             by (apply prefix_app; now exists v).
           congruence.
        -- injection Huv as _ Hs. now exists u, v.
Qed.

(* ================================================================= *)
(** ** Query Builder *)

Lemma truthy_spec (x : option string) :
  truthy x = true <-> exists s, x = Some s /\ s <> "".
Proof.
  destruct x as [s|]; simpl.
  - destruct (String.eqb_spec s ""); simpl; split.
    + discriminate.
    + intros [s' [[= <-] Hs]]. contradiction.
    + intros _. now exists s.
    + reflexivity.
  - split; [discriminate | intros [s [H _]]; discriminate].
Qed.

Lemma category_test_spec (x : option string) :
  truthy x && not_All x = true
  <-> exists s, x = Some s /\ s <> "" /\ s <> "All".
Proof.
  destruct x as [s|]; simpl.
  - destruct (String.eqb_spec s ""), (String.eqb_spec s "All"); simpl;
      split; try discriminate; try reflexivity;
      try (intros [s' [[= <-] [H1 H2]]]; contradiction).
    intros _. now exists s.
  - split; [discriminate | intros [s [H _]]; discriminate].
Qed.

(** What [build_query] stores under each of its four keys. *)
Lemma build_query_get
    (a o b : option string) (s : list string) :
  let q := build_query a o b s in
  dict_get "animal_type" q
    = (if truthy a && not_All a then Some (QStr (str_of a)) else None)
  /\ dict_get "outcome_type" q
    = (if truthy o && not_All o then Some (QStr (str_of o)) else None)
  /\ dict_get "breed" q
    = (if truthy b
       then Some (QDict [("$regex", QStr (str_of b)); ("$options", QStr "i")])
       else None)
  /\ dict_get "sex_upon_outcome" q
    = (match s with
       | [] => None
       | _ :: _ => Some (QDict [("$in", QList s)])
       end).
Proof.
  unfold build_query.
  destruct (truthy a && not_All a), (truthy o && not_All o), (truthy b), s;
    cbn; repeat split; reflexivity.
Qed.

(** C3. [build_query] puts a category field (animal type, outcome type)
    in the Filter exactly when that input is non-empty and is not the
    sentinel "All", and then as an exact match on the given value; with
    both categories "All", no breed text and no sex picked, the Filter
    is the empty one. *)
Theorem build_query_category_fields
    (animal_type outcome_type breed_text : option string)
    (sex_list : list string) :
  let q := build_query animal_type outcome_type breed_text sex_list in
  (forall c, dict_get "animal_type" q = Some c
     <-> exists v, animal_type = Some v /\ v <> "" /\ v <> "All"
                   /\ c = QStr v)
  /\ (forall c, dict_get "outcome_type" q = Some c
     <-> exists v, outcome_type = Some v /\ v <> "" /\ v <> "All"
                   /\ c = QStr v)
  /\ (forall sex,
        (breed_text = None \/ breed_text = Some "") ->
        (sex = None \/ sex = Some []) ->
        build_query (Some "All") (Some "All") breed_text (or_empty sex) = []).
Proof.
  intros q.
  destruct (build_query_get animal_type outcome_type breed_text sex_list)
    as (Ha & Ho & _ & _).
  fold q in Ha, Ho.
  assert (Hcat : forall x c,
             (if truthy x && not_All x then Some (QStr (str_of x)) else None)
             = Some c
             <-> exists v, x = Some v /\ v <> "" /\ v <> "All" /\ c = QStr v).
  { intros x c. destruct (truthy x && not_All x) eqn:E.
    - apply category_test_spec in E. destruct E as [v [-> [H1 H2]]]. simpl.
      split.
      + intros [= <-]. now exists v.
      + intros [v' [[= <-] [_ [_ ->]]]]. reflexivity.
    - split; [discriminate|].
      intros [v [Hx [H1 [H2 _]]]].
      assert (truthy x && not_All x = true)
        by (apply category_test_spec; now exists v).
      congruence. }
  split; [|split].
  - intros c. rewrite Ha. apply Hcat.
  - intros c. rewrite Ho. apply Hcat.
  - intros sex [-> | ->] [-> | ->]; reflexivity.
Qed.

(** A sex selection that is not empty becomes the constraint
    [{"$in": selection}]; with nothing picked the field is left out. *)
Theorem build_query_sex_filter
    (animal_type outcome_type breed_text : option string)
    (sex : option (list string)) :
  dict_get "sex_upon_outcome"
    (build_query animal_type outcome_type breed_text (or_empty sex))
  = match sex with
    | Some (x :: l) => Some (QDict [("$in", QList (x :: l))])
    | _ => None
    end.
Proof.
  destruct (build_query_get animal_type outcome_type breed_text (or_empty sex))
    as (_ & _ & _ & Hs).
  rewrite Hs. now destruct sex as [[|x l]|].
Qed.

Lemma breed_constraint_holds (p : string) (field : option value) :
  literal_pattern p = true ->
  constraint_holds field (QDict [("$regex", QStr p); ("$options", QStr "i")])
  = Some true
  <-> exists breed u v,
        field = Some (VStr breed)
        /\ lower breed = String.append u (String.append (lower p) v).
Proof.
  intros Hlit. cbn. split.
  - destruct field as [[| |breed|]|]; try discriminate.
    unfold regex_search. rewrite Hlit. cbn. intros [= H].
    apply contains_spec in H. destruct H as [u [v H]]. now exists breed, u, v.
  - intros [breed [u [v [-> H]]]].
    unfold regex_search. rewrite Hlit. cbn. f_equal.
    apply contains_spec. now exists u, v.
Qed.

(** C4. A non-empty breed text becomes the constraint
    [{"$regex": text, "$options": "i"}] on the breed field: a pattern
    searched anywhere in the field with case folded.  For a text without
    pattern metacharacters a Record meets it exactly when its breed,
    case folded, contains the folded text; a Record whose breed is
    "Shepherd" matches the Filter built from "shepherd". *)
Theorem build_query_breed_pattern
    (animal_type outcome_type : option string) (breed_text : string)
    (sex_list : list string) :
  breed_text <> "" ->
  let q := build_query animal_type outcome_type (Some breed_text) sex_list in
  let c := QDict [("$regex", QStr breed_text); ("$options", QStr "i")] in
  dict_get "breed" q = Some c
  /\ (literal_pattern breed_text = true ->
      forall r : record,
        constraint_holds (dict_get "breed" r) c = Some true
        <-> exists breed u v,
              dict_get "breed" r = Some (VStr breed)
              /\ lower breed
                 = String.append u (String.append (lower breed_text) v))
  /\ matches [("breed", VStr "Shepherd")]
             (build_query (Some "All") (Some "All") (Some "shepherd")
                          (or_empty None))
     = Some true.
Proof.
  intros Hne q c.
  destruct (build_query_get animal_type outcome_type (Some breed_text) sex_list)
    as (_ & _ & Hb & _).
  assert (Ht : truthy (Some breed_text) = true)
    by (apply truthy_spec; now exists breed_text).
  rewrite Ht in Hb. split; [exact Hb|]. split.
  - intros Hlit r. now apply breed_constraint_holds.
  - reflexivity.
Qed.

Lemma build_query_breed_pattern_witness :
  dict_get "breed" (build_query (Some "Dog") None (Some "shepherd") ["Intact Male"])
  = Some (QDict [("$regex", QStr "shepherd"); ("$options", QStr "i")]).
Proof.
  refine (proj1 (build_query_breed_pattern
                   (Some "Dog") None "shepherd" ["Intact Male"] _)).
  discriminate.
Defined.

(* ================================================================= *)
(** ** Tables *)

Lemma add_key_In (acc : list string) (k c : string) :
  In c (add_key acc k) <-> In c acc \/ c = k.
Proof.
  unfold add_key. destruct (str_in k acc) eqn:E.
  - apply str_in_In in E. split; [now left | intros [H | ->]; assumption].
  - rewrite in_app_iff. simpl. intuition congruence.
Qed.

Lemma fold_add_key_In (ks acc : list string) (c : string) :
  In c (fold_left add_key ks acc) <-> In c acc \/ In c ks.
Proof.
  revert acc. induction ks as [|k ks IH]; intros acc; simpl.
  - tauto.
  - rewrite IH, add_key_In. intuition congruence.
Qed.

Lemma fold_records_In (rs : list record) (acc : list string) (c : string) :
  In c (fold_left (fun acc r => fold_left add_key (dict_keys r) acc) rs acc)
  <-> In c acc \/ exists r, In r rs /\ In c (dict_keys r).
Proof.
  revert acc. induction rs as [|r rs IH]; intros acc; simpl.
  - split; [now left | intros [H | [r [[] _]]]; assumption].
  - rewrite IH, fold_add_key_In. split.
    + intros [[H | H] | [r' [H1 H2]]].
      * now left.
      * right. exists r. split; [now left | assumption].
      * right. exists r'. split; [now right | assumption].
    + intros [H | [r' [[<- | H1] H2]]].
      * left. now left.
      * left. now right.
      * right. now exists r'.
Qed.

(** A column of [pd.DataFrame(rows)] is a key of one of the rows. *)
Lemma columns_of_records_In (rs : list record) (c : string) :
  In c (columns_of_records rs)
  <-> exists r, In r rs /\ dict_has c r = true.
Proof.
  unfold columns_of_records. rewrite fold_records_In. split.
  - intros [[] | [r [H1 H2]]]. exists r. split; [assumption|].
    rewrite dict_has_keys. now apply str_in_In.
  - intros [r [H1 H2]]. right. exists r. split; [assumption|].
    rewrite dict_has_keys in H2. now apply str_in_In.
Qed.

Lemma dict_get_tabulate {V : Type} (f : string -> V) (ks : list string)
    (c : string) :
  dict_get c (map (fun k => (k, f k)) ks)
  = if str_in c ks then Some (f c) else None.
Proof.
  unfold str_in. induction ks as [|k ks IH]; simpl; [reflexivity|].
  destruct (String.eqb_spec c k) as [->|Hne]; [reflexivity | exact IH].
Qed.

Lemma DataFrame_get (rs : list record) (c : string) :
  dict_get c (cols (DataFrame rs))
  = if str_in c (columns_of_records rs) then Some (map (cell c) rs) else None.
Proof.
  unfold DataFrame. simpl.
  apply (dict_get_tabulate (fun k => map (cell k) rs)).
Qed.

Lemma in_columns_has (c : string) (df : frame) :
  in_columns c df = dict_has c (cols df).
Proof. unfold in_columns, df_columns. now rewrite dict_has_keys. Qed.

Lemma in_columns_DataFrame (rs : list record) (c : string) :
  in_columns c (DataFrame rs) = str_in c (columns_of_records rs).
Proof.
  rewrite in_columns_has. unfold dict_has. rewrite DataFrame_get.
  now destruct (str_in c (columns_of_records rs)).
Qed.

Lemma dict_get_set {V : Type} (k c : string) (v : V) (d : dict V) :
  dict_get c (dict_set k v d) = if String.eqb c k then Some v else dict_get c d.
Proof.
  destruct (String.eqb_spec c k) as [->|Hne].
  - apply dict_get_set_same.
  - apply dict_get_set_other. congruence.
Qed.

(** The table [to_dataframe] makes of a list of dicts. *)
Lemma to_dataframe_Rows (rs : list record) :
  exists df,
    to_dataframe (Rows rs) = Ret df
    /\ nrows df = length rs
    /\ forall c,
         dict_get c (cols df)
         = if str_in c (columns_of_records rs)
           then Some (if String.eqb c "_id"
                      then astype_str (map (cell c) rs)
                      else map (cell c) rs)
           else None.
Proof.
  unfold to_dataframe, raw_dataframe, try_except_Exception, py_list, bind.
  destruct (dict_get "_id" (cols (DataFrame rs))) as [ids|] eqn:E.
  - eexists. split; [reflexivity|]. split; [reflexivity|].
    intros c. unfold setitem, cols at 1. rewrite dict_get_set.
    rewrite DataFrame_get in E.
    destruct (String.eqb_spec c "_id") as [->|Hne].
    + destruct (str_in "_id" (columns_of_records rs)); congruence.
    + apply DataFrame_get.
  - eexists. split; [reflexivity|]. split; [reflexivity|].
    intros c. rewrite DataFrame_get. rewrite DataFrame_get in E.
    destruct (String.eqb_spec c "_id") as [->|Hne]; [|reflexivity].
    now destruct (str_in "_id" (columns_of_records rs)).
Qed.

(** Filling in missing columns keeps what is there and adds a column of
    [None] for each name that was asked for and missing. *)
Lemma ensure_columns_get (cs : list string) (df : frame) :
  nrows (fold_left ensure_step cs df) = nrows df
  /\ forall c,
       dict_get c (cols (fold_left ensure_step cs df))
       = match dict_get c (cols df) with
         | Some vs => Some vs
         | None => if str_in c cs then Some (repeat VNone (nrows df)) else None
         end.
Proof.
  revert df. induction cs as [|c0 cs IH]; intros df; simpl.
  - split; [reflexivity|]. intros c. now destruct (dict_get c (cols df)).
  - destruct (IH (ensure_step df c0)) as [Hn Hget].
    assert (Hstep_n : nrows (ensure_step df c0) = nrows df)
      by (unfold ensure_step; now destruct (in_columns c0 df)).
    split; [congruence|].
    intros c. rewrite Hget, Hstep_n. unfold ensure_step.
    rewrite in_columns_has. unfold dict_has.
    destruct (dict_get c0 (cols df)) as [vs0|] eqn:E0.
    + destruct (dict_get c (cols df)) eqn:E; [reflexivity|].
      destruct (String.eqb_spec c c0) as [->|Hne]; [congruence | reflexivity].
    + simpl. rewrite dict_get_set.
      destruct (String.eqb_spec c c0) as [->|Hne].
      * now rewrite E0.
      * now destruct (dict_get c (cols df)).
Qed.

Lemma ensure_expected_fold (df : frame) :
  ensure_expected df = fold_left ensure_step EXPECTED_COLS df.
Proof. reflexivity. Qed.

Lemma length_to_dict_records (df : frame) :
  length (to_dict_records df) = nrows df.
Proof. unfold to_dict_records. now rewrite length_map, length_seq. Qed.

Lemma nth_error_to_dict_records (df : frame) (i : nat) :
  i < nrows df ->
  nth_error (to_dict_records df) i = Some (row_dict df i).
Proof.
  intros Hi. unfold to_dict_records.
  rewrite nth_error_map, nth_error_nth' with (d := 0)
    by (now rewrite length_seq).
  simpl. now rewrite seq_nth.
Qed.

Lemma row_dict_get (df : frame) (i : nat) (c : string) :
  dict_get c (row_dict df i)
  = option_map (fun vs => nth i vs VNaN) (dict_get c (cols df)).
Proof.
  unfold row_dict.
  apply (dict_get_map (fun vs : list value => nth i vs VNaN)).
Qed.

(* ================================================================= *)
(** ** View layer: the table *)

(** The table [update_table] returns the records of when the reader
    yields the dicts [rs]. *)
Lemma update_table_frame_Rows (reader : reader_fn)
    (animal outcome breed : option string) (sex : option (list string))
    (rs : list record) :
  reader (build_query animal outcome breed (or_empty sex)) = Ret (Rows rs) ->
  exists df,
    update_table_frame reader animal outcome breed sex = Ret df
    /\ nrows df = length rs
    /\ forall c,
         dict_get c (cols df)
         = if str_in c (columns_of_records rs)
           then Some (if String.eqb c "_id"
                      then astype_str (map (cell c) rs)
                      else map (cell c) rs)
           else if str_in c EXPECTED_COLS
                then Some (repeat VNone (length rs))
                else None.
Proof.
  intros Hread. unfold update_table_frame. rewrite Hread.
  destruct (to_dataframe_Rows rs) as [df0 [Hdf0 [Hn0 Hget0]]].
  unfold try_except_Exception, bind. rewrite Hdf0.
  exists (ensure_expected df0). split; [reflexivity|].
  rewrite ensure_expected_fold.
  destruct (ensure_columns_get EXPECTED_COLS df0) as [Hn Hget].
  split; [congruence|].
  intros c. rewrite Hget, Hget0, Hn0.
  now destruct (str_in c (columns_of_records rs)).
Qed.

(** C1. When the reader raises an exception (an instance of
    [Exception]) on the query built from the inputs, [update_table]
    raises nothing: it returns the records of the table that has exactly
    the expected columns and no row. *)
Theorem update_table_reader_raises (reader : reader_fn)
    (animal outcome breed : option string) (sex : option (list string))
    (e : exn) :
  reader (build_query animal outcome breed (or_empty sex)) = Raise e ->
  is_Exception e = true ->
  exists df,
    update_table_frame reader animal outcome breed sex = Ret df
    /\ df_columns df = EXPECTED_COLS
    /\ nrows df = 0
    /\ update_table reader animal outcome breed sex = Ret (to_dict_records df)
    /\ to_dict_records df = [].
Proof.
  intros Hread Hexn.
  exists (DataFrame_columns EXPECTED_COLS).
  assert (Hframe : update_table_frame reader animal outcome breed sex
                   = Ret (DataFrame_columns EXPECTED_COLS)).
  { unfold update_table_frame. rewrite Hread.
    unfold try_except_Exception, bind. now rewrite Hexn. }
  repeat split; try reflexivity; try assumption.
  unfold update_table. now rewrite Hframe.
Qed.

Lemma update_table_reader_raises_witness :
  exists df,
    update_table_frame failing_reader (Some "Dog") (Some "All") None None
    = Ret df
    /\ df_columns df = EXPECTED_COLS
    /\ nrows df = 0
    /\ update_table failing_reader (Some "Dog") (Some "All") None None
       = Ret (to_dict_records df)
    /\ to_dict_records df = [].
Proof.
  apply (update_table_reader_raises failing_reader
           (Some "Dog") (Some "All") None None
           (mkExn OtherException "connection lost"));
    reflexivity.
Defined.

(** An exception outside [Exception] is not caught: it leaves
    [update_table] as it came. *)
Remark update_table_base_exception (reader : reader_fn)
    (animal outcome breed : option string) (sex : option (list string))
    (e : exn) :
  reader (build_query animal outcome breed (or_empty sex)) = Raise e ->
  is_Exception e = false ->
  update_table reader animal outcome breed sex = Raise e.
Proof.
  intros Hread Hexn. unfold update_table, update_table_frame.
  rewrite Hread. unfold try_except_Exception, bind. now rewrite Hexn.
Qed.

(** Whatever the reader did, a record [update_table] returns has every
    expected field. *)
Theorem update_table_rows_have_expected_fields (reader : reader_fn)
    (animal outcome breed : option string) (sex : option (list string))
    (recs : list record) :
  update_table reader animal outcome breed sex = Ret recs ->
  forall row c, In row recs -> In c EXPECTED_COLS -> dict_has c row = true.
Proof.
  unfold update_table, update_table_frame.
  destruct (try_except_Exception _ _) as [df0|e]; unfold bind;
    [|discriminate].
  intros [= <-] row c Hrow Hc.
  unfold to_dict_records in Hrow. apply in_map_iff in Hrow.
  destruct Hrow as [i [<- _]].
  unfold dict_has. rewrite row_dict_get, ensure_expected_fold.
  destruct (ensure_columns_get EXPECTED_COLS df0) as [_ Hget].
  rewrite Hget. apply str_in_In in Hc. rewrite Hc.
  now destruct (dict_get c (cols df0)).
Qed.

Lemma update_table_rows_have_expected_fields_witness :
  exists recs,
    update_table sample_reader (Some "All") (Some "All") None None = Ret recs
    /\ dict_has "outcome_subtype" (nth 1 sample_rows []) = false
    /\ dict_has "outcome_subtype" (nth 1 recs []) = true.
Proof.
  eexists. split; [reflexivity|]. split; [reflexivity|].
  eapply (update_table_rows_have_expected_fields sample_reader
            (Some "All") (Some "All") None None).
  - reflexivity.
  - right. left. reflexivity.
  - simpl. tauto.
Defined.

(** C2. Whatever list of dicts the reader yields, the table
    [update_table] returns has every expected column and every key of
    every source dict as a column; each returned record has all expected
    fields, [None] in the expected fields no source dict has, a field
    for every key of every source dict, and under every key whose source
    value is a string that very string.  What a scalar that is not a
    string reads as once pandas has typed its column is not stated. *)
Theorem update_table_columns (reader : reader_fn)
    (animal outcome breed : option string) (sex : option (list string))
    (rs : list record) :
  reader (build_query animal outcome breed (or_empty sex)) = Ret (Rows rs) ->
  exists df,
    update_table_frame reader animal outcome breed sex = Ret df
    /\ update_table reader animal outcome breed sex = Ret (to_dict_records df)
    /\ length (to_dict_records df) = length rs
    /\ (forall c, In c EXPECTED_COLS -> in_columns c df = true)
    /\ (forall r c, In r rs -> dict_has c r = true -> in_columns c df = true)
    /\ (forall i r, nth_error rs i = Some r ->
        exists row,
          nth_error (to_dict_records df) i = Some row
          /\ (forall c, In c EXPECTED_COLS -> dict_has c row = true)
          /\ (forall c, In c EXPECTED_COLS ->
                (forall r', In r' rs -> dict_has c r' = false) ->
                dict_get c row = Some VNone)
          /\ (forall c r', In r' rs -> dict_has c r' = true ->
                dict_has c row = true)
          /\ (forall c s, dict_get c r = Some (VStr s) ->
                dict_get c row = Some (VStr s))).
Proof.
  intros Hread.
  destruct (update_table_frame_Rows reader animal outcome breed sex rs Hread)
    as [df [Hframe [Hn Hget]]].
  exists df. split; [exact Hframe|].
  split; [unfold update_table; now rewrite Hframe|].
  split; [now rewrite length_to_dict_records|].
  assert (Hexp : forall c, In c EXPECTED_COLS -> dict_has c (cols df) = true).
  { intros c Hc. unfold dict_has. rewrite Hget.
    apply str_in_In in Hc. rewrite Hc.
    now destruct (str_in c (columns_of_records rs)). }
  assert (Habsent : forall c,
             (forall r', In r' rs -> dict_has c r' = false) ->
             str_in c (columns_of_records rs) = false).
  { intros c Hnone. apply str_in_false. rewrite columns_of_records_In.
    intros [r' [Hin Hhas]]. rewrite (Hnone r' Hin) in Hhas. discriminate. }
  split; [intros c Hc; rewrite in_columns_has; now apply Hexp|].
  split.
  { intros r c Hr Hc. rewrite in_columns_has. unfold dict_has. rewrite Hget.
    assert (Hin : str_in c (columns_of_records rs) = true).
    { apply str_in_In, columns_of_records_In. now exists r. }
    now rewrite Hin. }
  intros i r Hi.
  assert (Hlt : i < nrows df).
  { rewrite Hn. apply nth_error_Some. congruence. }
  exists (row_dict df i). split; [now apply nth_error_to_dict_records|].
  split; [|split; [|split]].
  - intros c Hc. unfold dict_has. rewrite row_dict_get.
    specialize (Hexp c Hc). unfold dict_has in Hexp.
    now destruct (dict_get c (cols df)).
  - intros c Hc Hnone. rewrite row_dict_get, Hget, (Habsent c Hnone).
    apply str_in_In in Hc. rewrite Hc. simpl. f_equal.
    apply nth_repeat_lt. now rewrite <- Hn.
  - intros c r' Hr' Hc. unfold dict_has. rewrite row_dict_get, Hget.
    assert (Hin : str_in c (columns_of_records rs) = true).
    { apply str_in_In, columns_of_records_In. now exists r'. }
    now rewrite Hin.
  - intros c s Hv. rewrite row_dict_get, Hget.
    assert (Hin : str_in c (columns_of_records rs) = true).
    { apply str_in_In, columns_of_records_In. exists r.
      split; [eapply nth_error_In; eassumption|].
      unfold dict_has. now rewrite Hv. }
    rewrite Hin.
    assert (Hcell : nth i (map (cell c) rs) VNaN = VStr s).
    { rewrite nth_indep with (d' := cell c (@nil (string * value)))
        by (rewrite length_map; congruence).
      rewrite map_nth. erewrite nth_error_nth by eassumption.
      unfold cell. now rewrite Hv. }
    destruct (String.eqb c "_id"); simpl; f_equal; [|exact Hcell].
    unfold astype_str.
    rewrite nth_indep with (d' := VStr (py_str VNaN))
      by (rewrite !length_map; congruence).
    rewrite (map_nth (fun v => VStr (py_str v))). now rewrite Hcell.
Qed.

Lemma update_table_columns_witness :
  exists df,
    update_table_frame sample_reader (Some "All") (Some "All") None None
    = Ret df
    /\ update_table sample_reader (Some "All") (Some "All") None None
       = Ret (to_dict_records df)
    /\ length (to_dict_records df) = 2
    /\ (forall c, In c EXPECTED_COLS -> in_columns c df = true)
    /\ in_columns "location_lat" df = true.
Proof.
  destruct (update_table_columns sample_reader
              (Some "All") (Some "All") None None sample_rows eq_refl)
    as [df (H1 & H2 & H3 & H4 & H5 & _)].
  exists df. repeat split; try assumption.
  apply (H5 (nth 0 sample_rows [])); [now left | reflexivity].
Defined.

(* ================================================================= *)
(** ** Identifier column *)

Lemma astype_str_all_str (vs : list value) :
  forall v, In v (astype_str vs) -> is_str v = true.
Proof.
  intros v Hv. unfold astype_str in Hv. apply in_map_iff in Hv.
  destruct Hv as [x [<- _]]. reflexivity.
Qed.



(* ================================================================= *)
(** ** View layer: the chart *)

Lemma value_eqb_eq (a b : value) : value_eqb a b = true <-> a = b.
Proof.
  destruct a, b; simpl; split; try discriminate; try reflexivity;
    try (intros H; apply String.eqb_eq in H; now subst);
    try (intros [= ->]; apply String.eqb_refl).
Qed.

Lemma value_eqb_refl (a : value) : value_eqb a a = true.
Proof. now apply value_eqb_eq. Qed.

Lemma value_eqb_neq (a b : value) : value_eqb a b = false <-> a <> b.
Proof.
  rewrite <- value_eqb_eq. destruct (value_eqb a b); split; congruence.
Qed.

Lemma count_of_bump (k v : value) (acc : list (value * nat)) :
  count_of k (bump v acc)
  = if value_eqb k v
    then Some (S (match count_of v acc with Some n => n | None => 0 end))
    else count_of k acc.
Proof.
  induction acc as [|[k0 n] acc IH]; simpl.
  - reflexivity.
  - destruct (value_eqb v k0) eqn:Ev; simpl.
    + apply value_eqb_eq in Ev. subst k0.
      now destruct (value_eqb k v).
    + rewrite IH. destruct (value_eqb k v) eqn:Ekv; [|reflexivity].
      apply value_eqb_eq in Ekv. subst k. now rewrite Ev.
Qed.

Lemma count_of_fold_bump (k : value) (vs : list value)
    (acc : list (value * nat)) :
  count_of k (fold_left (fun acc v => bump v acc) vs acc)
  = match count_of k acc, occurrences k vs with
    | Some m, c => Some (m + c)
    | None, 0 => None
    | None, S c => Some (S c)
    end.
Proof.
  revert acc. unfold occurrences.
  induction vs as [|v vs IH]; intros acc; simpl.
  - destruct (count_of k acc); [f_equal; lia | reflexivity].
  - rewrite IH, count_of_bump.
    destruct (value_eqb k v) eqn:E; simpl.
    + apply value_eqb_eq in E. subst v.
      destruct (count_of k acc); f_equal; lia.
    + reflexivity.
Qed.

(** [tally] counts every value of the column. *)
Lemma count_of_tally (k : value) (vs : list value) :
  count_of k (tally vs)
  = match occurrences k vs with
    | 0 => None
    | S c => Some (S c)
    end.
Proof. unfold tally. now rewrite count_of_fold_bump. Qed.

Lemma count_of_None (k : value) (l : list (value * nat)) :
  count_of k l = None <-> ~ In k (map fst l).
Proof.
  induction l as [|[k0 n] l IH]; simpl.
  - tauto.
  - destruct (value_eqb k k0) eqn:E.
    + apply value_eqb_eq in E. subst. split; [discriminate | tauto].
    + apply value_eqb_neq in E. rewrite IH. intuition congruence.
Qed.

Lemma count_of_Some_In (k : value) (n : nat) (l : list (value * nat)) :
  count_of k l = Some n -> In (k, n) l.
Proof.
  induction l as [|[k0 m] l IH]; simpl; [discriminate|].
  destruct (value_eqb k k0) eqn:E.
  - apply value_eqb_eq in E. intros [= ->]. left. now subst.
  - intros H. right. now apply IH.
Qed.

Lemma In_count_of (k : value) (n : nat) (l : list (value * nat)) :
  NoDup (map fst l) -> In (k, n) l -> count_of k l = Some n.
Proof.
  induction l as [|[k0 m] l IH]; simpl; [tauto|].
  intros Hnd [[= -> ->] | Hin].
  - now rewrite value_eqb_refl.
  - inversion Hnd as [|? ? Hnotin Hnd']; subst.
    destruct (value_eqb k k0) eqn:E.
    + apply value_eqb_eq in E. subst k0. exfalso. apply Hnotin.
      change k with (fst (k, n)). now apply in_map.
    + now apply IH.
Qed.

Lemma bump_keys_In (x v : value) (acc : list (value * nat)) :
  In x (map fst (bump v acc)) <-> x = v \/ In x (map fst acc).
Proof.
  induction acc as [|[k0 n] acc IH]; simpl.
  - intuition congruence.
  - destruct (value_eqb v k0) eqn:E; simpl.
    + apply value_eqb_eq in E. subst. intuition congruence.
    + rewrite IH. intuition congruence.
Qed.

Lemma bump_keys_NoDup (v : value) (acc : list (value * nat)) :
  NoDup (map fst acc) -> NoDup (map fst (bump v acc)).
Proof.
  induction acc as [|[k0 n] acc IH]; simpl; intros Hnd.
  - constructor; [tauto | constructor].
  - inversion Hnd as [|? ? Hnotin Hnd']; subst.
    destruct (value_eqb v k0) eqn:E; simpl.
    + now constructor.
    + constructor; [|now apply IH].
      rewrite bump_keys_In. apply value_eqb_neq in E.
      intuition congruence.
Qed.

Lemma tally_keys_NoDup (vs : list value) : NoDup (map fst (tally vs)).
Proof.
  unfold tally.
  assert (H : forall acc, NoDup (map fst acc) ->
              NoDup (map fst (fold_left (fun acc v => bump v acc) vs acc))).
  { induction vs as [|v vs IH]; intros acc Hacc; simpl; [assumption|].
    apply IH. now apply bump_keys_NoDup. }
  apply H. constructor.
Qed.

Lemma insert_desc_perm (x : value * nat) (l : list (value * nat)) :
  Permutation (insert_desc x l) (x :: l).
Proof.
  induction l as [|y l IH]; simpl; [reflexivity|].
  destruct (Nat.leb (snd y) (snd x)); [reflexivity|].
  rewrite IH. apply perm_swap.
Qed.

Lemma sort_desc_perm (l : list (value * nat)) : Permutation (sort_desc l) l.
Proof.
  induction l as [|x l IH]; simpl; [reflexivity|].
  rewrite insert_desc_perm. now constructor.
Qed.

(** Sorting the bars moves them and changes no count. *)
Lemma count_of_sort_desc (k : value) (l : list (value * nat)) :
  NoDup (map fst l) -> count_of k (sort_desc l) = count_of k l.
Proof.
  intros Hnd.
  pose proof (sort_desc_perm l) as Hperm.
  assert (Hnd' : NoDup (map fst (sort_desc l))).
  { eapply Permutation_NoDup; [|exact Hnd].
    apply Permutation_map. now symmetry. }
  destruct (count_of k l) as [n|] eqn:E.
  - apply In_count_of; [exact Hnd'|].
    eapply Permutation_in; [symmetry; exact Hperm|].
    now apply count_of_Some_In.
  - apply count_of_None. apply count_of_None in E. intros Hin. apply E.
    eapply Permutation_in; [|exact Hin]. now apply Permutation_map.
Qed.

Lemma fillna_no_missing (fill : value) (vs : list value) :
  isna fill = false ->
  filter (fun v => negb (isna v)) (fillna fill vs) = fillna fill vs.
Proof.
  intros Hfill. unfold fillna. induction vs as [|v vs IH]; simpl.
  - reflexivity.
  - destruct (isna v) eqn:E; simpl.
    + rewrite Hfill. simpl. now rewrite IH.
    + rewrite E. simpl. now rewrite IH.
Qed.

Lemma occurrences_missing (k : value) (vs : list value) :
  isna k = true ->
  occurrences k (filter (fun v => negb (isna v)) vs) = 0.
Proof.
  intros Hk. unfold occurrences.
  induction vs as [|v vs IH]; [reflexivity|].
  simpl. destruct (isna v) eqn:Ev; simpl; [exact IH|].
  destruct (value_eqb k v) eqn:Ekv; [|exact IH].
  apply value_eqb_eq in Ekv. congruence.
Qed.

Lemma fillna_outcome_bucket (rows : list record) :
  fillna (VStr "Unknown") (map (cell "outcome_type") rows)
  = map outcome_bucket rows.
Proof. unfold fillna. now rewrite map_map. Qed.

Lemma has_outcome_column (rows : list record) :
  in_columns "outcome_type" (DataFrame rows) = true
  <-> exists r, In r rows /\ dict_has "outcome_type" r = true.
Proof.
  rewrite in_columns_DataFrame, str_in_In. apply columns_of_records_In.
Qed.

(** C5. On an empty row set, and on any row set none of whose rows has
    an outcome-type field, [update_chart] raises nothing and returns the
    chart titled "Outcome Type Distribution (no data)", without bars. *)
Theorem update_chart_no_data (rows : list record) :
  rows = [] \/ (forall r, In r rows -> dict_has "outcome_type" r = false) ->
  update_chart rows
  = Ret (mkFigure "Outcome Type Distribution (no data)" [] None).
Proof.
  intros [-> | Hnone]; [reflexivity|].
  unfold update_chart.
  assert (Hcol : in_columns "outcome_type" (DataFrame rows) = false).
  { destruct (in_columns "outcome_type" (DataFrame rows)) eqn:E;
      [|reflexivity].
    apply has_outcome_column in E. destruct E as [r [Hin Hhas]].
    rewrite (Hnone r Hin) in Hhas. discriminate. }
  rewrite Hcol. simpl. now rewrite orb_true_r.
Qed.

Lemma update_chart_no_data_witness :
  update_chart [[("name", VStr "Rex")]; []]
  = Ret (mkFigure "Outcome Type Distribution (no data)" [] None).
Proof.
  apply (update_chart_no_data [[("name", VStr "Rex")]; []]).
  right. intros r [<- | [<- | []]]; reflexivity.
Defined.

(** C6. On a non-empty row set with an outcome-type column,
    [update_chart] raises nothing and returns the chart titled
    "Outcome Type Distribution" whose bars give every bucket once, with
    the number of rows that fall under it, a row without outcome type
    falling under "Unknown"; three rows of "Adoption" and two of null
    give the bars Adoption 3 and Unknown 2. *)
Theorem update_chart_counts (rows : list record) :
  rows <> [] ->
  (exists r, In r rows /\ dict_has "outcome_type" r = true) ->
  exists fig,
    update_chart rows = Ret fig
    /\ fig_title fig = "Outcome Type Distribution"
    /\ (forall k,
          count_of k (fig_bars fig)
          = match occurrences k (map outcome_bucket rows) with
            | 0 => None
            | S n => Some (S n)
            end)
    /\ NoDup (map fst (fig_bars fig))
    /\ (forall k, isna k = true -> count_of k (fig_bars fig) = None)
    /\ update_chart adoption_rows
       = Ret (mkFigure "Outcome Type Distribution"
                [(VStr "Adoption", 3); (VStr "Unknown", 2)]
                (Some (20, 20, 40, 20))).
Proof.
  intros Hrows Hcol.
  assert (Hin : in_columns "outcome_type" (DataFrame rows) = true)
    by now apply has_outcome_column.
  assert (Hempty : df_empty (DataFrame rows) = false).
  { unfold df_empty. simpl. rewrite length_map.
    rewrite in_columns_DataFrame in Hin.
    destruct rows; [congruence|].
    destruct (columns_of_records (r :: rows)); [discriminate | reflexivity]. }
  assert (Hget : getitem "outcome_type" (DataFrame rows)
                 = Ret (map (cell "outcome_type") rows)).
  { unfold getitem. rewrite DataFrame_get.
    rewrite in_columns_DataFrame in Hin. now rewrite Hin. }
  unfold update_chart. rewrite Hempty, Hin, Hget. unfold bind. simpl orb.
  cbv iota. eexists. split; [reflexivity|]. simpl fig_title. simpl fig_bars.
  rewrite fillna_outcome_bucket.
  assert (Hclean : filter (fun v => negb (isna v)) (map outcome_bucket rows)
                   = map outcome_bucket rows).
  { rewrite <- fillna_outcome_bucket. now apply fillna_no_missing. }
  assert (Hcount : forall k,
             count_of k (value_counts (map outcome_bucket rows))
             = match occurrences k (map outcome_bucket rows) with
               | 0 => None
               | S n => Some (S n)
               end).
  { intros k. unfold value_counts. rewrite Hclean.
    rewrite count_of_sort_desc by apply tally_keys_NoDup.
    apply count_of_tally. }
  split; [reflexivity|]. split; [exact Hcount|]. split; [|split].
  - unfold value_counts. eapply Permutation_NoDup.
    + apply Permutation_map. symmetry. apply sort_desc_perm.
    + apply tally_keys_NoDup.
  - intros k Hk. rewrite Hcount.
    rewrite <- Hclean. now rewrite occurrences_missing.
  - reflexivity.
Qed.

Lemma update_chart_counts_witness :
  exists fig,
    update_chart adoption_rows = Ret fig
    /\ fig_title fig = "Outcome Type Distribution"
    /\ count_of (VStr "Adoption") (fig_bars fig) = Some 3
    /\ count_of (VStr "Unknown") (fig_bars fig) = Some 2
    /\ count_of VNone (fig_bars fig) = None.
Proof.
  destruct (update_chart_counts adoption_rows) as [fig (H1 & H2 & H3 & _ & H5 & _)].
  - discriminate.
  - exists [("outcome_type", VStr "Adoption")]. split; [now left | reflexivity].
  - exists fig. split; [exact H1|]. split; [exact H2|].
    split; [exact (H3 (VStr "Adoption"))|].
    split; [exact (H3 (VStr "Unknown")) | now apply H5].
Defined.

(* ================================================================= *)
(** ** Capability Resolver: construction *)

Section ConstructionFacts.

Variables (instance world : Type).
Variable ShelterClass : list string -> world -> result instance * world.
Variables (USERNAME PASSWORD : string).

Let construct := try_construct instance world ShelterClass USERNAME PASSWORD.

(** The look at the parameter list changes nothing: the no-argument
    shape is in the list already. *)
Lemma patterns_fixed (init_params : list string) :
  patterns USERNAME PASSWORD init_params
  = [[]; [USERNAME]; [USERNAME; PASSWORD]].
Proof.
  unfold patterns. cbn [existsb args_eqb length combine forallb Nat.eqb].
  cbn [andb orb negb]. now rewrite andb_false_r.
Qed.

(** C7. [try_construct] goes through the shapes no argument, username,
    username and password, in that order, and returns the instance of
    the first call that does not raise; the parameter list of the
    class never changes that list of shapes; when all three guarded
    calls raise, it makes one more call without arguments and its
    result, an exception included, is what [try_construct] gives. *)
Theorem try_construct_order (init_params : list string) (w : world) :
  patterns USERNAME PASSWORD init_params
  = [[]; [USERNAME]; [USERNAME; PASSWORD]]
  /\ (forall i w1,
        ShelterClass [] w = (Ret i, w1) ->
        construct init_params w = (Ret i, w1))
  /\ (forall e0 w1 i w2,
        ShelterClass [] w = (Raise e0, w1) -> is_Exception e0 = true ->
        ShelterClass [USERNAME] w1 = (Ret i, w2) ->
        construct init_params w = (Ret i, w2))
  /\ (forall e0 w1 e1 w2 i w3,
        ShelterClass [] w = (Raise e0, w1) -> is_Exception e0 = true ->
        ShelterClass [USERNAME] w1 = (Raise e1, w2) ->
        is_Exception e1 = true ->
        ShelterClass [USERNAME; PASSWORD] w2 = (Ret i, w3) ->
        construct init_params w = (Ret i, w3))
  /\ (forall e0 w1 e1 w2 e2 w3,
        ShelterClass [] w = (Raise e0, w1) -> is_Exception e0 = true ->
        ShelterClass [USERNAME] w1 = (Raise e1, w2) ->
        is_Exception e1 = true ->
        ShelterClass [USERNAME; PASSWORD] w2 = (Raise e2, w3) ->
        is_Exception e2 = true ->
        construct init_params w = ShelterClass [] w3)
  /\ (forall init_params',
        construct init_params' w = construct init_params w).
Proof.
  split; [apply patterns_fixed|].
  unfold construct, try_construct. rewrite patterns_fixed.
  repeat split.
  - intros i w1 H0. simpl. now rewrite H0.
  - intros e0 w1 i w2 H0 X0 H1. simpl. now rewrite H0, X0, H1.
  - intros e0 w1 e1 w2 i w3 H0 X0 H1 X1 H2. simpl.
    now rewrite H0, X0, H1, X1, H2.
  - intros e0 w1 e1 w2 e2 w3 H0 X0 H1 X1 H2 X2. simpl.
    now rewrite H0, X0, H1, X1, H2, X2.
  - intros init_params'. now rewrite patterns_fixed.
Qed.

End ConstructionFacts.

(** A class that wants both credentials is built on the third attempt,
    after two skipped failures. *)
Example try_construct_two_credentials :
  try_construct (list string) nat two_credential_class "user" "secret"
                ["self"; "username"; "password"] 0
  = (Ret ["user"; "secret"], 3).
Proof. reflexivity. Qed.

(* ================================================================= *)
(** ** Capability Resolver: method discovery *)

Lemma hasattr_get (o : pyobj) (name : string) :
  hasattr o name = true <-> exists a, dict_get name (attrs_of o) = Some a.
Proof.
  unfold hasattr, dict_has. destruct (dict_get name (attrs_of o)) as [a|].
  - split; [intros _; now exists a | reflexivity].
  - split; [discriminate | intros [a H]; discriminate].
Qed.

Lemma scan_candidates_none (obj : pyobj) (names : list string) :
  no_callable obj names -> scan_candidates obj names = None.
Proof.
  unfold no_callable. induction names as [|n names IH]; intros Hnone; simpl.
  - reflexivity.
  - assert (Hrest : scan_candidates obj names = None).
    { apply IH. intros n' f Hin. apply Hnone. now right. }
    unfold hasattr, dict_has, getattr.
    destruct (dict_get n (attrs_of obj)) as [f|] eqn:E; [|exact Hrest].
    rewrite (Hnone n f (or_introl eq_refl) E). exact Hrest.
Qed.

Lemma scan_candidates_first (obj : pyobj) (pre : list string)
    (name : string) (post : list string) (fn : pyobj) :
  no_callable obj pre ->
  dict_get name (attrs_of obj) = Some fn ->
  callable fn = true ->
  scan_candidates obj (pre ++ name :: post) = Some (Ret (CallWithQuery fn)).
Proof.
  unfold no_callable. intros Hpre Hget Hcall.
  induction pre as [|n pre IH]; simpl.
  - unfold hasattr, dict_has, getattr, make_lambda.
    now rewrite Hget, Hcall.
  - assert (Hrest : scan_candidates obj (pre ++ name :: post)
                    = Some (Ret (CallWithQuery fn))).
    { apply IH. intros n' f Hin. apply Hpre. now right. }
    unfold hasattr, dict_has, getattr.
    destruct (dict_get n (attrs_of obj)) as [f|] eqn:E; [|exact Hrest].
    rewrite (Hpre n f (or_introl eq_refl) E). exact Hrest.
Qed.

(** Whatever the loop returns is the one-argument wrapper of a callable
    attribute. *)
Lemma scan_candidates_shape (obj : pyobj) (names : list string)
    (r : result reader) :
  scan_candidates obj names = Some r ->
  exists name fn,
    In name names /\ dict_get name (attrs_of obj) = Some fn
    /\ callable fn = true /\ r = Ret (CallWithQuery fn).
Proof.
  induction names as [|n names IH]; simpl; [discriminate|].
  unfold hasattr, dict_has, getattr, make_lambda.
  destruct (dict_get n (attrs_of obj)) as [f|] eqn:E.
  - destruct (callable f) eqn:Ec.
    + intros [= <-]. exists n, f. now repeat split; [left|..].
    + intros H. destruct (IH H) as [name [fn [Hin Hrest]]].
      exists name, fn. split; [now right | exact Hrest].
  - intros H. destruct (IH H) as [name [fn [Hin Hrest]]].
    exists name, fn. split; [now right | exact Hrest].
Qed.

Lemma scan_candidates_found (obj : pyobj) (names : list string)
    (name : string) (fn : pyobj) :
  In name names ->
  dict_get name (attrs_of obj) = Some fn ->
  callable fn = true ->
  scan_candidates obj names <> None.
Proof.
  intros Hin Hget Hcall. induction names as [|n names IH]; [destruct Hin|].
  simpl. unfold hasattr, dict_has, getattr, make_lambda.
  destruct Hin as [-> | Hin].
  - rewrite Hget, Hcall. discriminate.
  - destruct (dict_get n (attrs_of obj)) as [f|]; [|now apply IH].
    destruct (callable f); [discriminate | now apply IH].
Qed.

Lemma has_nested_find_get (obj : pyobj) (outer : string) :
  has_nested_find obj outer = true
  <-> exists o f, dict_get outer (attrs_of obj) = Some o
                  /\ dict_get "find" (attrs_of o) = Some f.
Proof.
  unfold has_nested_find.
  destruct (dict_get outer (attrs_of obj)) as [o|].
  - rewrite hasattr_get. split.
    + intros [f Hf]. now exists o, f.
    + intros [o' [f [[= <-] Hf]]]. now exists f.
  - split; [discriminate | intros [o [f [H _]]]; discriminate].
Qed.

(** C8. [resolve_reader] returns the one-argument wrapper of the first
    name of [CANDIDATE_METHODS] that is a callable attribute of the
    object; when no candidate is one, the wrapper of
    [obj.collection.find] if the object has a [collection] with a [find],
    else that of [obj.database.find] likewise; and when neither is
    there it raises [RuntimeError] with the message that asks for a
    method that retrieves records. *)
Theorem resolve_reader_discovery (obj : pyobj) :
  (forall pre name post fn,
      CANDIDATE_METHODS = pre ++ name :: post ->
      no_callable obj pre ->
      dict_get name (attrs_of obj) = Some fn ->
      callable fn = true ->
      resolve_reader obj = Ret (CallWithQuery fn)
      /\ forall q, run_reader (CallWithQuery fn) q = call fn [q])
  /\ (no_callable obj CANDIDATE_METHODS ->
      forall c f,
        dict_get "collection" (attrs_of obj) = Some c ->
        dict_get "find" (attrs_of c) = Some f ->
        resolve_reader obj = Ret (CollectionFind obj)
        /\ forall q, run_reader (CollectionFind obj) q = call f [q])
  /\ (no_callable obj CANDIDATE_METHODS ->
      has_nested_find obj "collection" = false ->
      forall d f,
        dict_get "database" (attrs_of obj) = Some d ->
        dict_get "find" (attrs_of d) = Some f ->
        resolve_reader obj = Ret (DatabaseFind obj)
        /\ forall q, run_reader (DatabaseFind obj) q = call f [q])
  /\ (no_callable obj CANDIDATE_METHODS ->
      has_nested_find obj "collection" = false ->
      has_nested_find obj "database" = false ->
      resolve_reader obj
      = Raise (mkExn RuntimeError
                 "Could not find a usable read method. Please check CRUD_Python_Module.py and confirm a method exists to retrieve records.")).
Proof.
  split; [|split; [|split]].
  - intros pre name post fn Hsplit Hpre Hget Hcall.
    split; [|reflexivity].
    unfold resolve_reader. rewrite Hsplit.
    now rewrite (scan_candidates_first obj pre name post fn).
  - intros Hnone c f Hc Hf. unfold resolve_reader.
    rewrite (scan_candidates_none obj _ Hnone).
    assert (Hnest : has_nested_find obj "collection" = true)
      by (apply has_nested_find_get; now exists c, f).
    rewrite Hnest. split; [reflexivity|].
    intros q. unfold run_reader, getattr, bind. now rewrite Hc, Hf.
  - intros Hnone Hcoll d f Hd Hf. unfold resolve_reader.
    rewrite (scan_candidates_none obj _ Hnone), Hcoll.
    assert (Hnest : has_nested_find obj "database" = true)
      by (apply has_nested_find_get; now exists d, f).
    rewrite Hnest. split; [reflexivity|].
    intros q. unfold run_reader, getattr, bind. now rewrite Hd, Hf.
  - intros Hnone Hcoll Hdb. unfold resolve_reader.
    now rewrite (scan_candidates_none obj _ Hnone), Hcoll, Hdb.
Qed.

(** C9. When some candidate name is a callable attribute,
    [resolve_reader] returns a one-argument wrapper and raises nothing:
    building the lambda calls nothing, so the [except TypeError] branch
    and its no-argument wrapper are never reached, and a method that
    rejects the query argument is found out only when the reader is
    called. *)
Theorem resolve_reader_no_arity_check (obj : pyobj) (name : string)
    (fn : pyobj) :
  In name CANDIDATE_METHODS ->
  dict_get name (attrs_of obj) = Some fn ->
  callable fn = true ->
  (exists fn',
      resolve_reader obj = Ret (CallWithQuery fn')
      /\ callable fn' = true
      /\ forall q, run_reader (CallWithQuery fn') q = call fn' [q])
  /\ (forall fn', resolve_reader obj <> Ret (CallNoArgs fn'))
  /\ (forall r, make_lambda r = Ret r)
  /\ resolve_reader no_arg_client = Ret (CallWithQuery read_no_args)
  /\ (forall q, exists e,
        run_reader (CallWithQuery read_no_args) q = Raise e
        /\ is_TypeError e = true)
  /\ call read_no_args [] = Ret (Rows sample_rows).
Proof.
  intros Hin Hget Hcall.
  pose proof (scan_candidates_found obj _ name fn Hin Hget Hcall) as Hsome.
  destruct (scan_candidates obj CANDIDATE_METHODS) as [r|] eqn:E;
    [|congruence].
  destruct (scan_candidates_shape obj _ r E)
    as [name' [fn' (_ & _ & Hcall' & ->)]].
  assert (Hres : resolve_reader obj = Ret (CallWithQuery fn'))
    by (unfold resolve_reader; now rewrite E).
  split; [|split; [|split; [|split; [|split]]]].
  - exists fn'. split; [exact Hres|]. split; [exact Hcall' | reflexivity].
  - intros fn''. rewrite Hres. discriminate.
  - reflexivity.
  - reflexivity.
  - intros q. eexists. split; reflexivity.
  - reflexivity.
Qed.

Lemma resolve_reader_no_arity_check_witness :
  exists fn',
    resolve_reader no_arg_client = Ret (CallWithQuery fn')
    /\ callable fn' = true.
Proof.
  destruct (resolve_reader_no_arity_check no_arg_client "read" read_no_args)
    as [[fn' (H1 & H2 & _)] _].
  - simpl. tauto.
  - reflexivity.
  - reflexivity.
  - exists fn'. split; assumption.
Defined.

(* ================================================================= *)
(** ** Start-up: importing the client class *)

Section ImportFacts.

Variables (shelter_class world : Type).
Variable import_shelter :
  string -> world -> result (option shelter_class) * world.

Let import := import_class shelter_class world import_shelter.
Let failure (last : string) : exn :=
  mkExn RuntimeError
    (String.append "Could not import AnimalShelter class. Last import error: "
                   last).

(** The first module that has the class wins and nothing is imported
    after it; a module that fails to import or has no class is passed
    over.  When neither module gives the class, start-up ends with a
    [RuntimeError] whose message ends with the text of the last import
    error: that of the second module if it failed, else that of the
    first, else "None".  An exception outside [Exception], from the
    first import or from the second, ends the loop at once and is what
    start-up raises. *)
Theorem import_class_cases (w : world) :
  (forall c w1,
      import_shelter "CRUD_Python_Module" w = (Ret (Some c), w1) ->
      import w = (Ret c, w1))
  /\ (forall r1 w1 c w2,
        import_shelter "CRUD_Python_Module" w = (r1, w1) ->
        (r1 = Ret None \/ exists e1, r1 = Raise e1 /\ is_Exception e1 = true) ->
        import_shelter "gradstore_crud" w1 = (Ret (Some c), w2) ->
        import w = (Ret c, w2))
  /\ (forall w1 w2,
        import_shelter "CRUD_Python_Module" w = (Ret None, w1) ->
        import_shelter "gradstore_crud" w1 = (Ret None, w2) ->
        import w = (Raise (failure "None"), w2))
  /\ (forall e1 w1 w2,
        import_shelter "CRUD_Python_Module" w = (Raise e1, w1) ->
        is_Exception e1 = true ->
        import_shelter "gradstore_crud" w1 = (Ret None, w2) ->
        import w = (Raise (failure (exn_msg e1)), w2))
  /\ (forall r1 w1 e2 w2,
        import_shelter "CRUD_Python_Module" w = (r1, w1) ->
        (r1 = Ret None \/ exists e1, r1 = Raise e1 /\ is_Exception e1 = true) ->
        import_shelter "gradstore_crud" w1 = (Raise e2, w2) ->
        is_Exception e2 = true ->
        import w = (Raise (failure (exn_msg e2)), w2))
  /\ (forall e1 w1,
        import_shelter "CRUD_Python_Module" w = (Raise e1, w1) ->
        is_Exception e1 = false ->
        import w = (Raise e1, w1))
  /\ (forall r1 w1 e2 w2,
        import_shelter "CRUD_Python_Module" w = (r1, w1) ->
        (r1 = Ret None \/ exists e1, r1 = Raise e1 /\ is_Exception e1 = true) ->
        import_shelter "gradstore_crud" w1 = (Raise e2, w2) ->
        is_Exception e2 = false ->
        import w = (Raise e2, w2)).
Proof.
  unfold import, failure, import_class, MODULE_NAMES. simpl.
  split; [|split; [|split; [|split; [|split; [|split]]]]].
  - intros c w1 H1. now rewrite H1.
  - intros r1 w1 c w2 H1 [-> | [e1 [-> X1]]] H2; rewrite H1.
    + now rewrite H2.
    + now rewrite X1, H2.
  - intros w1 w2 H1 H2. now rewrite H1, H2.
  - intros e1 w1 w2 H1 X1 H2. now rewrite H1, X1, H2.
  - intros r1 w1 e2 w2 H1 [-> | [e1 [-> X1]]] H2 X2; rewrite H1.
    + now rewrite H2, X2.
    + now rewrite X1, H2, X2.
  - intros e1 w1 H1 X1. now rewrite H1, X1.
  - intros r1 w1 e2 w2 H1 [-> | [e1 [-> X1]]] H2 X2; rewrite H1.
    + now rewrite H2, X2.
    + now rewrite X1, H2, X2.
Qed.

End ImportFacts.

(* ================================================================= *)
(** ** Capability Resolver: the constructor calls made *)

Section ConstructionCalls.

Variables (instance world : Type).
Variable ShelterClass : list string -> world -> result instance * world.
Variables (USERNAME PASSWORD : string).

(** [try_construct] run on the class that writes its calls down,
    starting from an empty list of calls. *)
Let logged_run (init_params : list string) (w : world) :=
  try_construct instance (list (list string) * world) (logged ShelterClass)
                USERNAME PASSWORD init_params ([], w).

(** The run, attempt by attempt. *)
Lemma logged_try_construct (init_params : list string) (w : world) :
  logged_run init_params w
  = let (r0, w1) := ShelterClass [] w in
    if skipped r0 then
      let (r1, w2) := ShelterClass [USERNAME] w1 in
      if skipped r1 then
        let (r2, w3) := ShelterClass [USERNAME; PASSWORD] w2 in
        if skipped r2 then
          let (r3, w4) := ShelterClass [] w3 in
          (r3, ([[]; [USERNAME]; [USERNAME; PASSWORD]; []], w4))
        else (r2, ([[]; [USERNAME]; [USERNAME; PASSWORD]], w3))
      else (r1, ([[]; [USERNAME]], w2))
    else (r0, ([[]], w1)).
Proof.
  unfold logged_run, try_construct. rewrite patterns_fixed.
  simpl. unfold logged. simpl.
  destruct (ShelterClass [] w) as [[i0|e0] w1]; simpl; [reflexivity|].
  destruct (is_Exception e0); simpl; [|reflexivity].
  destruct (ShelterClass [USERNAME] w1) as [[i1|e1] w2]; simpl; [reflexivity|].
  destruct (is_Exception e1); simpl; [|reflexivity].
  destruct (ShelterClass [USERNAME; PASSWORD] w2) as [[i2|e2] w3]; simpl;
    [reflexivity|].
  destruct (is_Exception e2); simpl; [|reflexivity].
  now destruct (ShelterClass [] w3) as [r3 w4].
Qed.

(** [try_construct] calls the constructor with the argument lists no
    argument, username, username and password, no argument again, in
    that order and without a gap, and stops after the first call that
    returns an instance or raises outside [Exception]: one call when
    the first does so, two when the first was passed over and the second
    does so, three likewise, and all four, the no-argument constructor
    for the second time, exactly when the three guarded calls were all
    passed over.  Writing the calls down changes neither the result nor
    the world left behind. *)
Theorem try_construct_calls (init_params : list string) (w : world) :
  let out := logged_run init_params w in
  let calls := fst (snd out) in
  try_construct instance world ShelterClass USERNAME PASSWORD init_params w
  = (fst out, snd (snd out))
  /\ (exists n, 1 <= n <= 4
        /\ calls = firstn n [[]; [USERNAME]; [USERNAME; PASSWORD]; []])
  /\ (forall r0 w1,
        ShelterClass [] w = (r0, w1) -> skipped r0 = false ->
        calls = [[]])
  /\ (forall r0 w1 r1 w2,
        ShelterClass [] w = (r0, w1) -> skipped r0 = true ->
        ShelterClass [USERNAME] w1 = (r1, w2) -> skipped r1 = false ->
        calls = [[]; [USERNAME]])
  /\ (forall r0 w1 r1 w2 r2 w3,
        ShelterClass [] w = (r0, w1) -> skipped r0 = true ->
        ShelterClass [USERNAME] w1 = (r1, w2) -> skipped r1 = true ->
        ShelterClass [USERNAME; PASSWORD] w2 = (r2, w3) ->
        skipped r2 = false ->
        calls = [[]; [USERNAME]; [USERNAME; PASSWORD]])
  /\ (forall r0 w1 r1 w2 r2 w3,
        ShelterClass [] w = (r0, w1) -> skipped r0 = true ->
        ShelterClass [USERNAME] w1 = (r1, w2) -> skipped r1 = true ->
        ShelterClass [USERNAME; PASSWORD] w2 = (r2, w3) ->
        skipped r2 = true ->
        calls = [[]; [USERNAME]; [USERNAME; PASSWORD]; []]
        /\ fst out = fst (ShelterClass [] w3)).
Proof.
  intros out calls. unfold calls, out. clear out calls.
  rewrite logged_try_construct.
  split; [|split; [|split; [|split; [|split]]]].
  - unfold try_construct. rewrite patterns_fixed. simpl.
    destruct (ShelterClass [] w) as [[i0|e0] w1]; simpl; [reflexivity|].
    destruct (is_Exception e0); simpl; [|reflexivity].
    destruct (ShelterClass [USERNAME] w1) as [[i1|e1] w2]; simpl;
      [reflexivity|].
    destruct (is_Exception e1); simpl; [|reflexivity].
    destruct (ShelterClass [USERNAME; PASSWORD] w2) as [[i2|e2] w3]; simpl;
      [reflexivity|].
    destruct (is_Exception e2); simpl; [|reflexivity].
    now destruct (ShelterClass [] w3) as [r3 w4].
  - destruct (ShelterClass [] w) as [r0 w1].
    destruct (skipped r0); [|exists 1; split; [lia | reflexivity]].
    destruct (ShelterClass [USERNAME] w1) as [r1 w2].
    destruct (skipped r1); [|exists 2; split; [lia | reflexivity]].
    destruct (ShelterClass [USERNAME; PASSWORD] w2) as [r2 w3].
    destruct (skipped r2); [|exists 3; split; [lia | reflexivity]].
    destruct (ShelterClass [] w3) as [r3 w4].
    exists 4. split; [lia | reflexivity].
  - intros r0 w1 H0 S0. now rewrite H0, S0.
  - intros r0 w1 r1 w2 H0 S0 H1 S1. now rewrite H0, S0, H1, S1.
  - intros r0 w1 r1 w2 r2 w3 H0 S0 H1 S1 H2 S2.
    now rewrite H0, S0, H1, S1, H2, S2.
  - intros r0 w1 r1 w2 r2 w3 H0 S0 H1 S1 H2 S2.
    rewrite H0, S0, H1, S1, H2, S2.
    now destruct (ShelterClass [] w3) as [r3 w4].
Qed.

End ConstructionCalls.

(** The class that wants both credentials is called three times; a
    class that refuses every shape is called four times, twice without
    arguments. *)
Example try_construct_calls_two_credentials :
  fst (snd (try_construct (list string) (list (list string) * nat)
              (logged two_credential_class) "user" "secret"
              ["self"; "username"; "password"] ([], 0)))
  = [[]; ["user"]; ["user"; "secret"]].
Proof. reflexivity. Qed.

Example try_construct_calls_all_refused :
  try_construct nat (list (list string) * nat)
    (logged (fun _ n => (Raise (mkExn OtherException "refused"), S n)))
    "user" "secret" ["self"] ([], 0)
  = (Raise (mkExn OtherException "refused"),
     ([[]; ["user"]; ["user"; "secret"]; []], 4)).
Proof. reflexivity. Qed.

(* ================================================================= *)
(** ** Start-up: initial fetch and dropdown options *)

(** With no control set, [update_table] sends the store the query the
    start-up fetch sent, the empty Filter, and treats the answer alike:
    whenever the reader of the callback answers the empty Filter as the
    reader of the start-up fetch did (the same records, or the same
    exception), [update_table] builds the very table the script built at
    start-up.  The two readers are the store at two moments; nothing
    says that they agree. *)
Theorem initial_frame_default_update (reader_at_start reader_now : reader_fn)
    (animal outcome breed : option string) (sex : option (list string)) :
  build_query animal outcome breed (or_empty sex) = [] ->
  reader_now [] = reader_at_start [] ->
  update_table_frame reader_now animal outcome breed sex
  = initial_frame reader_at_start.
Proof.
  intros Hq Hsame. unfold initial_frame, update_table_frame.
  rewrite Hq, Hsame.
  destruct (reader_at_start []) as [records|e]; simpl.
  - destruct (to_dataframe records) as [df|e]; simpl; [reflexivity|].
    now destruct (is_Exception e).
  - now destruct (is_Exception e).
Qed.

Lemma initial_frame_default_update_witness :
  update_table_frame
    (fun q => match q with
              | [] => Ret (Rows sample_rows)
              | _ :: _ => Ret (Rows shelter_rows)
              end)
    (Some "All") (Some "All") None None
  = initial_frame sample_reader.
Proof.
  apply (initial_frame_default_update sample_reader
           (fun q => match q with
                     | [] => Ret (Rows sample_rows)
                     | _ :: _ => Ret (Rows shelter_rows)
                     end)
           (Some "All") (Some "All") None None);
    reflexivity.
Defined.

Lemma In_unique (x : value) (vs : list value) : In x (unique vs) <-> In x vs.
Proof.
  induction vs as [|v vs IH]; simpl; [tauto|].
  rewrite filter_In, IH. destruct (value_eqb x v) eqn:E.
  - apply value_eqb_eq in E. subst. simpl. intuition congruence.
  - apply value_eqb_neq in E. simpl. intuition congruence.
Qed.

Lemma NoDup_unique (vs : list value) : NoDup (unique vs).
Proof.
  induction vs as [|v vs IH]; simpl; constructor.
  - rewrite filter_In. intros [_ H]. now rewrite value_eqb_refl in H.
  - now apply NoDup_filter.
Qed.

Lemma strings_of_map (vs : list value) (ss : list string) :
  strings_of vs = Some ss -> vs = map VStr ss.
Proof.
  revert ss. induction vs as [|v vs IH]; intros ss; simpl.
  - now intros [= <-].
  - destruct v; try discriminate.
    destruct (strings_of vs) as [ss'|]; simpl; [|discriminate].
    intros [= <-]. simpl. f_equal. now apply IH.
Qed.

Lemma strings_of_defined (vs : list value) :
  (forall v, In v vs -> is_str v = true) -> exists ss, strings_of vs = Some ss.
Proof.
  induction vs as [|v vs IH]; intros Hall; simpl.
  - now exists [].
  - destruct (IH (fun x Hx => Hall x (or_intror Hx))) as [ss Hss].
    specialize (Hall v (or_introl eq_refl)).
    destruct v; try discriminate. rewrite Hss. simpl. now eexists.
Qed.

Lemma insert_str_perm (s : string) (l : list string) :
  Permutation (insert_str s l) (s :: l).
Proof.
  induction l as [|x l IH]; simpl; [reflexivity|].
  destruct (String.leb s x); [reflexivity|].
  rewrite IH. apply perm_swap.
Qed.

Lemma sorted_strs_perm (l : list string) : Permutation (sorted_strs l) l.
Proof.
  induction l as [|x l IH]; simpl; [reflexivity|].
  rewrite insert_str_perm. now constructor.
Qed.

Lemma insert_str_sorted (s : string) (l : list string) :
  Sorted (fun a b => String.leb a b = true) l ->
  Sorted (fun a b => String.leb a b = true) (insert_str s l).
Proof.
  induction l as [|x l IH]; intros Hs; simpl.
  - repeat constructor.
  - destruct (String.leb s x) eqn:E.
    + constructor; [assumption | now constructor].
    + inversion Hs as [|? ? Hs' Hhd]; subst.
      constructor; [now apply IH|].
      assert (Hxs : String.leb x s = true)
        by (destruct (String.leb_total s x); congruence).
      destruct l as [|y l]; simpl; [now constructor|].
      destruct (String.leb s y); constructor; [assumption|].
      now inversion Hhd.
Qed.

Lemma sorted_strs_sorted (l : list string) :
  Sorted (fun a b => String.leb a b = true) (sorted_strs l).
Proof.
  induction l as [|x l IH]; simpl; [constructor | now apply insert_str_sorted].
Qed.

(** What [sorted_unique] lists: the strings of the column, each once, in
    ascending order. *)
Lemma sorted_unique_spec (vs : list value) (rest : list string) :
  sorted_unique vs = Some rest ->
  Sorted (fun a b => String.leb a b = true) rest
  /\ NoDup rest
  /\ forall s, In s rest <-> In (VStr s) vs.
Proof.
  unfold sorted_unique.
  destruct (strings_of (unique (dropna vs))) as [ss|] eqn:E; [|discriminate].
  simpl. intros [= <-]. apply strings_of_map in E.
  split; [apply sorted_strs_sorted|]. split.
  - eapply Permutation_NoDup; [symmetry; apply sorted_strs_perm|].
    pose proof (NoDup_unique (dropna vs)) as Hnd. rewrite E in Hnd.
    eapply NoDup_map_inv. exact Hnd.
  - intros s. split.
    + intros Hin.
      apply (Permutation_in _ (sorted_strs_perm ss)) in Hin.
      apply (in_map VStr) in Hin. rewrite <- E in Hin.
      apply (proj1 (In_unique _ _)) in Hin. unfold dropna in Hin.
      now apply filter_In in Hin.
    + intros Hin.
      apply (Permutation_in _ (Permutation_sym (sorted_strs_perm ss))).
      assert (Hu : In (VStr s) (unique (dropna vs))).
      { apply In_unique. unfold dropna. apply filter_In. now split. }
      rewrite E in Hu. apply in_map_iff in Hu.
      destruct Hu as [s' [[= ->] Hs']]. exact Hs'.
Qed.

Lemma sorted_unique_defined (vs : list value) :
  (forall v, In v vs -> isna v = true \/ is_str v = true) ->
  exists rest, sorted_unique vs = Some rest.
Proof.
  intros Hall. unfold sorted_unique.
  destruct (strings_of_defined (unique (dropna vs))) as [ss Hss].
  - intros v Hv. apply (proj1 (In_unique _ _)) in Hv. unfold dropna in Hv.
    apply filter_In in Hv. destruct Hv as [Hv Hna].
    destruct (Hall v Hv) as [H | H]; [|exact H].
    rewrite H in Hna. discriminate.
  - rewrite Hss. simpl. now eexists.
Qed.

Lemma options_with_All_spec (c : string) (df : frame) (opts : list string) :
  options_with_All c df = Some opts ->
  exists rest, opts = "All" :: rest /\ lists_column c df rest.
Proof.
  unfold options_with_All, lists_column.
  destruct (dict_get c (cols df)) as [vs|] eqn:E.
  - destruct (sorted_unique vs) as [rest|] eqn:Es; [|discriminate].
    simpl. intros [= <-]. exists rest. split; [reflexivity|].
    destruct (sorted_unique_spec vs rest Es) as (H1 & H2 & H3).
    split; [exact H1|]. split; [exact H2|].
    intros s. rewrite H3. split.
    + intros Hin. now exists vs.
    + intros [vs' [[= <-] Hin]]. exact Hin.
  - intros [= <-]. exists []. split; [reflexivity|].
    split; [constructor|]. split; [constructor|].
    intros s. split; [intros [] | intros [vs [H _]]; discriminate].
Qed.

Lemma options_with_All_defined (c : string) (df : frame) :
  string_column c df -> exists opts, options_with_All c df = Some opts.
Proof.
  unfold string_column, options_with_All. intros Hall.
  destruct (dict_get c (cols df)) as [vs|]; [|now eexists].
  destruct (sorted_unique_defined vs (fun v => Hall vs v eq_refl))
    as [rest ->].
  simpl. now eexists.
Qed.

(** The options of the animal-type and outcome-type dropdowns start
    with "All", which is the value both controls start on, and go on
    with the strings of the column of [base_df], each once, in ascending
    order; they are defined whenever the column holds strings and
    missing cells only. *)
Theorem category_options_sorted (base_df : frame) :
  (forall opts, animal_types base_df = Some opts ->
     exists rest, opts = "All" :: rest
                  /\ lists_column "animal_type" base_df rest)
  /\ (forall opts, outcome_types base_df = Some opts ->
     exists rest, opts = "All" :: rest
                  /\ lists_column "outcome_type" base_df rest)
  /\ (string_column "animal_type" base_df ->
      exists opts, animal_types base_df = Some opts)
  /\ (string_column "outcome_type" base_df ->
      exists opts, outcome_types base_df = Some opts).
Proof.
  unfold animal_types, outcome_types.
  split; [|split; [|split]].
  - intros opts. apply options_with_All_spec.
  - intros opts. apply options_with_All_spec.
  - apply options_with_All_defined.
  - apply options_with_All_defined.
Qed.

(** The options of the sex dropdown are the strings of the
    sex-upon-outcome column of [base_df], each once, in ascending order,
    without an "All" entry of their own. *)
Theorem sex_options_sorted (base_df : frame) (opts : list string) :
  sex_options base_df = Some opts ->
  lists_column "sex_upon_outcome" base_df opts.
Proof.
  unfold sex_options, lists_column.
  destruct (dict_get "sex_upon_outcome" (cols base_df)) as [vs|] eqn:E.
  - intros Es. destruct (sorted_unique_spec vs opts Es) as (H1 & H2 & H3).
    split; [exact H1|]. split; [exact H2|].
    intros s. rewrite H3. split.
    + intros Hin. now exists vs.
    + intros [vs' [[= <-] Hin]]. exact Hin.
  - intros [= <-]. split; [constructor|]. split; [constructor|].
    intros s. split; [intros [] | intros [vs [H _]]; discriminate].
Qed.

Lemma sex_options_sorted_witness :
  lists_column "sex_upon_outcome"
    (mkFrame 3 [("sex_upon_outcome",
                 [VStr "Spayed Female"; VNone; VStr "Intact Male"])])
    ["Intact Male"; "Spayed Female"].
Proof.
  apply (sex_options_sorted
           (mkFrame 3 [("sex_upon_outcome",
                        [VStr "Spayed Female"; VNone; VStr "Intact Male"])])
           ["Intact Male"; "Spayed Female"]).
  reflexivity.
Defined.

(** The table fetched at start-up when the reader yields the dicts
    [rs]. *)
Lemma initial_frame_Rows (reader : reader_fn) (rs : list record) :
  reader [] = Ret (Rows rs) ->
  exists df,
    initial_frame reader = Ret df
    /\ nrows df = length rs
    /\ forall c,
         dict_get c (cols df)
         = if str_in c (columns_of_records rs)
           then Some (if String.eqb c "_id"
                      then astype_str (map (cell c) rs)
                      else map (cell c) rs)
           else if str_in c EXPECTED_COLS
                then Some (repeat VNone (length rs))
                else None.
Proof.
  intros Hread. unfold initial_frame. rewrite Hread.
  destruct (to_dataframe_Rows rs) as [df0 [Hdf0 [Hn0 Hget0]]].
  unfold try_except_Exception, bind. rewrite Hdf0.
  exists (ensure_expected df0). split; [reflexivity|].
  rewrite ensure_expected_fold.
  destruct (ensure_columns_get EXPECTED_COLS df0) as [Hn Hget].
  split; [congruence|].
  intros c. rewrite Hget, Hget0, Hn0.
  now destruct (str_in c (columns_of_records rs)).
Qed.

Lemma cell_str (c s : string) (r : record) :
  cell c r = VStr s -> dict_get c r = Some (VStr s).
Proof.
  unfold cell. destruct (dict_get c r); [now intros -> | discriminate].
Qed.

(** Every animal type the dropdown offers after "All" is the animal
    type of a record fetched at start-up, and that record matches the
    Filter built when the option is chosen and nothing else is set. *)
Theorem animal_option_selects_record (reader : reader_fn)
    (rs : list record) (base_df : frame) (rest : list string) (s : string) :
  reader [] = Ret (Rows rs) ->
  initial_frame reader = Ret base_df ->
  animal_types base_df = Some ("All" :: rest) ->
  In s rest ->
  exists r,
    In r rs
    /\ dict_get "animal_type" r = Some (VStr s)
    /\ matches r (build_query (Some s) (Some "All") None (or_empty None))
       = Some true.
Proof.
  intros Hread Hinit Hopts Hin.
  destruct (initial_frame_Rows reader rs Hread) as [df [Hdf [_ Hget]]].
  rewrite Hinit in Hdf. injection Hdf as <-.
  destruct (options_with_All_spec _ _ _ Hopts) as [rest' [[= <-] Hlist]].
  destruct Hlist as (_ & _ & Hmem).
  apply Hmem in Hin. destruct Hin as [vs [Hvs Hs]].
  rewrite Hget in Hvs. simpl String.eqb in Hvs.
  destruct (str_in "animal_type" (columns_of_records rs)).
  - injection Hvs as <-. apply in_map_iff in Hs.
    destruct Hs as [r [Hcell Hr]]. apply cell_str in Hcell.
    exists r. split; [exact Hr|]. split; [exact Hcell|].
    unfold build_query.
    destruct (truthy (Some s) && not_All (Some s)); simpl; [|reflexivity].
    rewrite Hcell. simpl. now rewrite String.eqb_refl.
  - simpl in Hvs. injection Hvs as <-. apply repeat_spec in Hs. discriminate.
Qed.

Lemma animal_option_selects_record_witness :
  exists r,
    In r shelter_rows
    /\ dict_get "animal_type" r = Some (VStr "Cat")
    /\ matches r (build_query (Some "Cat") (Some "All") None (or_empty None))
       = Some true.
Proof.
  refine (animal_option_selects_record shelter_reader shelter_rows
            (ensure_expected (DataFrame shelter_rows))
            ["Cat"; "Dog"] "Cat" eq_refl eq_refl _ _).
  - reflexivity.
  - now left.
Defined.

(* ================================================================= *)
(** ** Resolver and table together *)

Lemma TypeError_is_Exception (e : exn) :
  is_TypeError e = true -> is_Exception e = true.
Proof. unfold is_TypeError, is_Exception. now destruct (exn_cls e). Qed.

(** When the method the resolver picks rejects the query argument with a
    [TypeError], resolution still succeeds, and every later call of
    [update_table] returns no record and raises nothing: the mismatch
    shows as a table that stays empty. *)
Theorem rejected_query_gives_empty_table (obj : pyobj)
    (pre : list string) (name : string) (post : list string) (fn : pyobj) :
  CANDIDATE_METHODS = pre ++ name :: post ->
  no_callable obj pre ->
  dict_get name (attrs_of obj) = Some fn ->
  callable fn = true ->
  (forall q, exists e, call fn [q] = Raise e /\ is_TypeError e = true) ->
  exists r,
    resolve_reader obj = Ret r
    /\ forall animal outcome breed sex,
         update_table (run_reader r) animal outcome breed sex = Ret [].
Proof.
  intros Hsplit Hpre Hget Hcall Hrej.
  exists (CallWithQuery fn). split.
  - unfold resolve_reader. rewrite Hsplit.
    now rewrite (scan_candidates_first obj pre name post fn).
  - intros animal outcome breed sex.
    unfold update_table, update_table_frame. simpl run_reader.
    destruct (Hrej (build_query animal outcome breed (or_empty sex)))
      as [e [He Hte]].
    rewrite He. unfold try_except_Exception, bind.
    now rewrite (TypeError_is_Exception e Hte).
Qed.

Lemma rejected_query_gives_empty_table_witness :
  exists r,
    resolve_reader no_arg_client = Ret r
    /\ forall animal outcome breed sex,
         update_table (run_reader r) animal outcome breed sex = Ret [].
Proof.
  apply (rejected_query_gives_empty_table no_arg_client
           [] "read" ["retrieve"; "read_all"; "readAll"; "get"; "get_all";
                      "find"; "fetch"; "fetch_all"; "read_records";
                      "read_all_records"; "get_records"] read_no_args).
  - reflexivity.
  - intros n f [].
  - reflexivity.
  - reflexivity.
  - intros q. eexists. split; reflexivity.
Defined.

(* ================================================================= *)
(** ** What the built Filter selects *)

Ltac split_field r k :=
  let v := fresh "v" in
  destruct (dict_get k r) as [v|]; [destruct v|].

(** For a breed text without pattern metacharacters, a Record matches
    the Filter [build_query] makes exactly when it passes the test of
    every control that is set: its animal type and outcome type are the
    chosen ones, its breed contains the text whatever the case, its sex
    is one of those picked.  A control left on "All", empty or unset
    asks nothing. *)
Theorem build_query_selects
    (animal_type outcome_type breed_text : option string)
    (sex_list : list string) (r : record) :
  literal_pattern (str_of breed_text) = true ->
  matches r (build_query animal_type outcome_type breed_text sex_list)
  = Some (passes animal_type outcome_type breed_text sex_list r).
Proof.
  intros Hlit. unfold build_query, passes, field_is.
  destruct (truthy animal_type && not_All animal_type),
           (truthy outcome_type && not_All outcome_type),
           (truthy breed_text), sex_list as [|x l];
    cbn [dict_set String.eqb Ascii.eqb Bool.eqb matches constraint_holds];
    unfold regex_search; rewrite ?Hlit;
    cbn [has_char Ascii.eqb Bool.eqb orb];
    split_field r "animal_type"; split_field r "outcome_type";
    split_field r "breed"; split_field r "sex_upon_outcome";
    cbn [andb]; f_equal; btauto.
Qed.

Lemma build_query_selects_witness :
  matches (nth 2 shelter_rows [])
          (build_query (Some "Dog") (Some "All") (Some "shepherd")
                       ["Intact Male"])
  = Some true.
Proof.
  rewrite (build_query_selects (Some "Dog") (Some "All") (Some "shepherd")
             ["Intact Male"] (nth 2 shelter_rows []) eq_refl).
  reflexivity.
Defined.

(* ================================================================= *)
(** ** Table and chart together *)

Lemma map_nth_seq {A B : Type} (f : A -> B) (l : list A) (d : A) :
  map (fun i => f (nth i l d)) (seq 0 (length l)) = map f l.
Proof.
  induction l as [|a l IH]; [reflexivity|].
  simpl length. rewrite <- cons_seq, <- seq_shift. simpl map at 1.
  rewrite map_map. simpl. now rewrite IH.
Qed.

(** The chart of a non-empty row set with an outcome-type column. *)
Lemma update_chart_bars (rows : list record) :
  rows <> [] ->
  (exists r, In r rows /\ dict_has "outcome_type" r = true) ->
  update_chart rows
  = Ret (mkFigure "Outcome Type Distribution"
                  (value_counts (map outcome_bucket rows))
                  (Some (20, 20, 40, 20))).
Proof.
  intros Hrows Hcol.
  assert (Hin : in_columns "outcome_type" (DataFrame rows) = true)
    by now apply has_outcome_column.
  assert (Hempty : df_empty (DataFrame rows) = false).
  { unfold df_empty. simpl. rewrite length_map.
    rewrite in_columns_DataFrame in Hin.
    destruct rows; [congruence|].
    destruct (columns_of_records (r :: rows)); [discriminate | reflexivity]. }
  assert (Hget : getitem "outcome_type" (DataFrame rows)
                 = Ret (map (cell "outcome_type") rows)).
  { unfold getitem. rewrite DataFrame_get.
    rewrite in_columns_DataFrame in Hin. now rewrite Hin. }
  unfold update_chart. rewrite Hempty, Hin, Hget. unfold bind. simpl orb.
  cbv iota. now rewrite fillna_outcome_bucket.
Qed.

Lemma count_of_bucket_counts (rows : list record) (k : value) :
  count_of k (value_counts (map outcome_bucket rows))
  = match occurrences k (map outcome_bucket rows) with
    | 0 => None
    | S n => Some (S n)
    end.
Proof.
  unfold value_counts.
  assert (Hclean : filter (fun v => negb (isna v)) (map outcome_bucket rows)
                   = map outcome_bucket rows).
  { rewrite <- fillna_outcome_bucket. now apply fillna_no_missing. }
  rewrite Hclean, count_of_sort_desc by apply tally_keys_NoDup.
  apply count_of_tally.
Qed.

Lemma ensure_expected_row_has (df0 : frame) (i : nat) (c : string) :
  In c EXPECTED_COLS -> dict_has c (row_dict (ensure_expected df0) i) = true.
Proof.
  intros Hc. unfold dict_has. rewrite row_dict_get, ensure_expected_fold.
  destruct (ensure_columns_get EXPECTED_COLS df0) as [_ Hget].
  rewrite Hget. apply str_in_In in Hc. rewrite Hc.
  now destruct (dict_get c (cols df0)).
Qed.

Lemma outcome_bucket_missing (r : record) :
  dict_has "outcome_type" r = false -> outcome_bucket r = VStr "Unknown".
Proof.
  unfold dict_has, outcome_bucket, cell.
  now destruct (dict_get "outcome_type" r).
Qed.

(** The bucket of row [i] of a table is the bucket of cell [i] of its
    outcome-type column. *)
Lemma outcome_bucket_row (df : frame) (i : nat) (vs : list value) :
  dict_get "outcome_type" (cols df) = Some vs ->
  outcome_bucket (row_dict df i)
  = (if isna (nth i vs VNaN) then VStr "Unknown" else nth i vs VNaN).
Proof.
  intros Hvs. unfold outcome_bucket, cell. rewrite row_dict_get, Hvs.
  reflexivity.
Qed.

(** The buckets of the records [update_table] returns are, row by row,
    those of the dicts the reader yielded. *)
Lemma update_table_buckets (reader : reader_fn)
    (animal outcome breed : option string) (sex : option (list string))
    (rs : list record) :
  reader (build_query animal outcome breed (or_empty sex)) = Ret (Rows rs) ->
  exists recs,
    update_table reader animal outcome breed sex = Ret recs
    /\ length recs = length rs
    /\ map outcome_bucket recs = map outcome_bucket rs.
Proof.
  intros Hread.
  destruct (update_table_frame_Rows reader animal outcome breed sex rs Hread)
    as [df [Hframe [Hn Hget]]].
  exists (to_dict_records df).
  split; [unfold update_table; now rewrite Hframe|].
  split; [now rewrite length_to_dict_records|].
  specialize (Hget "outcome_type"). simpl String.eqb in Hget.
  unfold to_dict_records. rewrite map_map.
  destruct (str_in "outcome_type" (columns_of_records rs)) eqn:Esrc.
  - rewrite (map_ext _ _ (fun i => outcome_bucket_row df i _ Hget)).
    rewrite Hn, <- (length_map (cell "outcome_type") rs).
    rewrite (map_nth_seq
               (fun v => if isna v then VStr "Unknown" else v)
               (map (cell "outcome_type") rs) VNaN).
    now rewrite map_map.
  - simpl in Hget.
    rewrite (map_ext _ _ (fun i => outcome_bucket_row df i _ Hget)).
    rewrite Hn. rewrite <- (repeat_length VNone (length rs)) at 1.
    rewrite (map_nth_seq
               (fun v => if isna v then VStr "Unknown" else v)
               (repeat VNone (length rs)) VNaN).
    assert (Hnone : forall r, In r rs -> dict_has "outcome_type" r = false).
    { intros r Hr. destruct (dict_has "outcome_type" r) eqn:E; [|reflexivity].
      apply str_in_false in Esrc. exfalso. apply Esrc.
      apply columns_of_records_In. now exists r. }
    clear - Hnone. induction rs as [|r rs IH]; [reflexivity|].
    simpl. rewrite (outcome_bucket_missing r) by (apply Hnone; now left).
    f_equal. apply IH. intros r' Hr'. apply Hnone. now right.
Qed.

(** The chart drawn from the records [update_table] returns counts the
    dicts the reader yielded: each bar stands for one outcome type, or
    for "Unknown", and is as high as the number of yielded dicts with
    that outcome type, or with none. *)
Theorem chart_counts_fetched_rows (reader : reader_fn)
    (animal outcome breed : option string) (sex : option (list string))
    (rs : list record) :
  reader (build_query animal outcome breed (or_empty sex)) = Ret (Rows rs) ->
  rs <> [] ->
  exists recs fig,
    update_table reader animal outcome breed sex = Ret recs
    /\ update_chart recs = Ret fig
    /\ fig_title fig = "Outcome Type Distribution"
    /\ forall k,
         count_of k (fig_bars fig)
         = match occurrences k (map outcome_bucket rs) with
           | 0 => None
           | S n => Some (S n)
           end.
Proof.
  intros Hread Hrs.
  destruct (update_table_buckets reader animal outcome breed sex rs Hread)
    as [recs [Htable [Hlen Hbuckets]]].
  pose proof Htable as Hrecs. unfold update_table, update_table_frame in Hrecs.
  destruct (try_except_Exception _ _) as [df0|e]; unfold bind in Hrecs;
    [|discriminate].
  injection Hrecs as Hrecs.
  assert (Hchart : update_chart recs
                   = Ret (mkFigure "Outcome Type Distribution"
                            (value_counts (map outcome_bucket recs))
                            (Some (20, 20, 40, 20)))).
  { apply update_chart_bars.
    - intros ->. destruct rs; [congruence | discriminate].
    - destruct recs as [|row recs']; [destruct rs; [congruence|discriminate]|].
      exists row. split; [now left|].
      unfold to_dict_records in Hrecs.
      assert (Hrow : In row (map (row_dict (ensure_expected df0))
                               (seq 0 (nrows (ensure_expected df0)))))
        by (rewrite Hrecs; now left).
      apply in_map_iff in Hrow. destruct Hrow as [i [<- _]].
      apply ensure_expected_row_has. simpl. tauto. }
  exists recs, (mkFigure "Outcome Type Distribution"
                  (value_counts (map outcome_bucket recs))
                  (Some (20, 20, 40, 20))).
  split; [exact Htable|]. split; [exact Hchart|]. split; [reflexivity|].
  intros k. simpl fig_bars. rewrite count_of_bucket_counts. now rewrite Hbuckets.
Qed.

Lemma chart_counts_fetched_rows_witness :
  exists recs fig,
    update_table shelter_reader (Some "All") (Some "All") None None = Ret recs
    /\ update_chart recs = Ret fig
    /\ count_of (VStr "Unknown") (fig_bars fig) = Some 1
    /\ count_of (VStr "Adoption") (fig_bars fig) = Some 1
    /\ count_of (VStr "Euthanasia") (fig_bars fig) = None.
Proof.
  destruct (chart_counts_fetched_rows shelter_reader
              (Some "All") (Some "All") None None shelter_rows eq_refl)
    as [recs [fig (H1 & H2 & _ & H4)]].
  - discriminate.
  - exists recs, fig. split; [exact H1|]. split; [exact H2|].
    split; [exact (H4 (VStr "Unknown"))|].
    split; [exact (H4 (VStr "Adoption")) | exact (H4 (VStr "Euthanasia"))].
Defined.

(** Whatever the reader did, the chart drawn from the records
    [update_table] returns is the "no data" chart exactly when no record
    was returned. *)
Theorem chart_no_data_iff_no_rows (reader : reader_fn)
    (animal outcome breed : option string) (sex : option (list string))
    (recs : list record) :
  update_table reader animal outcome breed sex = Ret recs ->
  (update_chart recs
   = Ret (mkFigure "Outcome Type Distribution (no data)" [] None)
   <-> recs = []).
Proof.
  unfold update_table, update_table_frame.
  destruct (try_except_Exception _ _) as [df0|e]; unfold bind;
    [|discriminate].
  intros [= Hrecs]. split; [|now intros ->].
  intros Hchart. destruct recs as [|row recs']; [reflexivity|]. exfalso.
  rewrite update_chart_bars in Hchart; [discriminate | discriminate |].
  exists row. split; [now left|].
  unfold to_dict_records in Hrecs.
  assert (Hrow : In row (map (row_dict (ensure_expected df0))
                           (seq 0 (nrows (ensure_expected df0)))))
    by (rewrite Hrecs; now left).
  apply in_map_iff in Hrow. destruct Hrow as [i [<- _]].
  apply ensure_expected_row_has. simpl. tauto.
Qed.

Lemma chart_no_data_iff_no_rows_witness :
  (update_chart (to_dict_records (ensure_expected (DataFrame shelter_rows)))
   = Ret (mkFigure "Outcome Type Distribution (no data)" [] None)
   <-> to_dict_records (ensure_expected (DataFrame shelter_rows)) = [])
  /\ length (to_dict_records (ensure_expected (DataFrame shelter_rows))) = 3
  /\ (exists fig,
        update_chart
          (to_dict_records (ensure_expected (DataFrame shelter_rows)))
        = Ret fig
        /\ fig_title fig = "Outcome Type Distribution"
        /\ length (fig_bars fig) = 3)
  /\ (update_chart [] = Ret (mkFigure "Outcome Type Distribution (no data)"
                               [] None)
      <-> @nil record = []).
Proof.
  split; [|split; [|split]].
  - apply (chart_no_data_iff_no_rows shelter_reader
             (Some "All") (Some "All") None None).
    reflexivity.
  - reflexivity.
  - eexists. split; [vm_compute; reflexivity|]. split; reflexivity.
  - apply (chart_no_data_iff_no_rows failing_reader
             (Some "Dog") None None None).
    reflexivity.
Defined.

(* ================================================================= *)
(** ** The fields of the returned records *)

Lemma dict_keys_set {V : Type} (k : string) (v : V) (d : dict V) :
  dict_keys (dict_set k v d)
  = if dict_has k d then dict_keys d else dict_keys d ++ [k].
Proof.
  unfold dict_has, dict_keys. induction d as [|[k' v'] d IH]; simpl.
  - reflexivity.
  - destruct (String.eqb_spec k k') as [->|Hne]; simpl; [reflexivity|].
    rewrite IH. now destruct (dict_get k d).
Qed.

Lemma add_key_NoDup (acc : list string) (k : string) :
  NoDup acc -> NoDup (add_key acc k).
Proof.
  intros Hnd. unfold add_key. destruct (str_in k acc) eqn:E; [exact Hnd|].
  apply str_in_false in E.
  apply NoDup_app; [exact Hnd | repeat constructor; tauto |].
  intros a Ha [<- | []]. contradiction.
Qed.

Lemma columns_of_records_NoDup (rs : list record) :
  NoDup (columns_of_records rs).
Proof.
  unfold columns_of_records.
  assert (Hkeys : forall ks acc, NoDup acc -> NoDup (fold_left add_key ks acc)).
  { induction ks as [|k ks IH]; intros acc Hacc; simpl; [exact Hacc|].
    apply IH. now apply add_key_NoDup. }
  assert (Hrs : forall acc, NoDup acc ->
            NoDup (fold_left
                     (fun acc r => fold_left add_key (dict_keys r) acc) rs acc)).
  { induction rs as [|r rs IH]; intros acc Hacc; simpl; [exact Hacc|].
    apply IH. now apply Hkeys. }
  apply Hrs. constructor.
Qed.

Lemma df_columns_DataFrame (rs : list record) :
  df_columns (DataFrame rs) = columns_of_records rs.
Proof.
  unfold df_columns, dict_keys, DataFrame. simpl. rewrite map_map. simpl.
  apply map_id.
Qed.

(** [to_dataframe] keeps the columns of the table it was given. *)
Lemma df_columns_to_dataframe (rs : list record) :
  exists df,
    to_dataframe (Rows rs) = Ret df
    /\ df_columns df = columns_of_records rs.
Proof.
  unfold to_dataframe, raw_dataframe, try_except_Exception, py_list, bind.
  destruct (dict_get "_id" (cols (DataFrame rs))) as [ids|] eqn:E.
  - eexists. split; [reflexivity|].
    unfold df_columns, setitem, cols at 1. rewrite dict_keys_set.
    unfold dict_has. rewrite E. apply df_columns_DataFrame.
  - eexists. split; [reflexivity | apply df_columns_DataFrame].
Qed.

Lemma df_columns_setitem_scalar (c : string) (v : value) (df : frame) :
  df_columns (setitem_scalar c v df)
  = if in_columns c df then df_columns df else df_columns df ++ [c].
Proof.
  unfold df_columns, setitem_scalar, in_columns, df_columns. simpl.
  now rewrite dict_keys_set, dict_has_keys.
Qed.

(** Filling in the columns [cs], each named once, appends those that
    were missing, in the order of [cs]. *)
Lemma ensure_columns_keys (cs : list string) (df : frame) :
  NoDup cs ->
  df_columns (fold_left ensure_step cs df)
  = df_columns df ++ filter (fun c => negb (str_in c (df_columns df))) cs.
Proof.
  revert df. induction cs as [|c0 cs IH]; intros df Hnd; simpl.
  - now rewrite app_nil_r.
  - inversion Hnd as [|? ? Hnotin Hnd']; subst.
    rewrite (IH _ Hnd'). unfold ensure_step.
    destruct (in_columns c0 df) eqn:E.
    + unfold in_columns in E. now rewrite E.
    + rewrite df_columns_setitem_scalar, E.
      unfold in_columns in E. rewrite E. simpl.
      rewrite <- app_assoc. simpl. do 2 f_equal.
      apply filter_ext_in. intros c Hc. f_equal.
      unfold str_in. rewrite existsb_app. simpl.
      destruct (String.eqb_spec c c0) as [->|Hne]; [contradiction|].
      now rewrite !orb_false_r.
Qed.

Lemma dict_keys_row_dict (df : frame) (i : nat) :
  dict_keys (row_dict df i) = df_columns df.
Proof.
  unfold dict_keys, row_dict, df_columns, dict_keys. now rewrite map_map.
Qed.

Lemma EXPECTED_COLS_NoDup : NoDup EXPECTED_COLS.
Proof.
  unfold EXPECTED_COLS.
  repeat (constructor; [simpl; intuition discriminate|]). constructor.
Qed.

(** All records [update_table] returns for a list of dicts have the same
    fields in the same order, none twice: first the keys of the dicts in
    order of first appearance, then the expected fields no dict had, in
    the order of [EXPECTED_COLS]. *)
Theorem update_table_record_keys (reader : reader_fn)
    (animal outcome breed : option string) (sex : option (list string))
    (rs : list record) :
  reader (build_query animal outcome breed (or_empty sex)) = Ret (Rows rs) ->
  let keys :=
    columns_of_records rs
    ++ filter (fun c => negb (str_in c (columns_of_records rs))) EXPECTED_COLS in
  exists recs,
    update_table reader animal outcome breed sex = Ret recs
    /\ NoDup keys
    /\ forall row, In row recs -> dict_keys row = keys.
Proof.
  intros Hread keys.
  destruct (df_columns_to_dataframe rs) as [df0 [Hdf0 Hcols0]].
  exists (to_dict_records (ensure_expected df0)). split; [|split].
  - unfold update_table, update_table_frame. rewrite Hread.
    unfold try_except_Exception, bind. now rewrite Hdf0.
  - unfold keys. apply NoDup_app.
    + apply columns_of_records_NoDup.
    + apply NoDup_filter, EXPECTED_COLS_NoDup.
    + intros c Hc Hf. apply filter_In in Hf. destruct Hf as [_ Hf].
      apply str_in_In in Hc. rewrite Hc in Hf. discriminate.
  - intros row Hrow. unfold to_dict_records in Hrow.
    apply in_map_iff in Hrow. destruct Hrow as [i [<- _]].
    rewrite dict_keys_row_dict, ensure_expected_fold.
    rewrite (ensure_columns_keys _ _ EXPECTED_COLS_NoDup), Hcols0.
    reflexivity.
Qed.

Lemma update_table_record_keys_witness :
  exists recs,
    update_table sample_reader (Some "All") (Some "All") None None = Ret recs
    /\ forall row, In row recs ->
         dict_keys row
         = ["_id"; "name"; "breed"; "outcome_type"; "location_lat";
            "animal_id"; "animal_type"; "color"; "age_upon_outcome";
            "sex_upon_outcome"; "outcome_subtype"; "date_of_birth"].
Proof.
  destruct (update_table_record_keys sample_reader
              (Some "All") (Some "All") None None sample_rows eq_refl)
    as [recs (H1 & _ & H3)].
  exists recs. split; [exact H1 | exact H3].
Defined.
